(** * Choreograph: the [Sequence] timeline

    A shallow embedding of [src/choreograph/Sequence.hpp] and the properties
    of its construction, append ([then]), override ([set]), copy and lookup
    ([getValue]) operations.

    Time model.  The source measures time in C++ [float].  In the modules
    [Sequence] and [Store] a time is an exact rational ([Q]): [<] and [>=]
    are the comparisons of the source, [+] is exact, and the [==] of the
    source on times is [Qeq]; rounding, infinities and NaN are outside that
    model, and what is proved there is stated through order facts.  The
    module [Clocked] is the same code over any arithmetic of times
    ([Clock.t]), among them IEEE 754 binary32 ([Clock.binary32]); what
    depends on how [+] rounds or on NaN is stated and evaluated there.

    Value model.  The value type [T] of the template is an arbitrary type;
    equality of values is Leibniz equality. *)

From Stdlib Require Import QArith Lqa SpecFloat.
From stdpp Require Import gmap.

(** ** Comparisons of the source on times *)

Module Time.

(** [x < y] on times. *)
Definition ltb (x y : Q) : bool :=
  (Qnum x * QDen y <? Qnum y * QDen x)%Z.

(** [x >= y] on times. *)
Definition geb (x y : Q) : bool :=
  (Qnum y * QDen x <=? Qnum x * QDen y)%Z.

End Time.

(** ** What a statement of the source can do *)

(** A constructor or method either returns, reports an error to its caller
    (a C++ exception), or has no defined behaviour (such as
    [std::vector::front] on an empty vector). *)
Inductive completion (A : Type) : Type :=
| Returns (a : A)
| Throws
| Undefined.

Arguments Returns {A} a.
Arguments Throws {A}.
Arguments Undefined {A}.

(** ** Sources and phrases *)

Module Source.

(** Modelled from the spec: [Source.h] is not among the sources.  A
    [Source<T>] is what the Sequence consumes of a phrase: its two time
    bounds, its two boundary values and its value-at-time function.  A
    [SourceRef<T>] is a shared handle to a source; no operation of
    [Sequence] mutates a phrase through its handle, so a handle is
    represented by the source it points to. *)
Record t (T : Type) : Type := mk {
  getStartTime : Q;
  getEndTime : Q;
  getStartValue : T;
  getEndValue : T;
  getValue : Q -> T
}.

Arguments mk {T} _ _ _ _ _.
Arguments getStartTime {T} _.
Arguments getEndTime {T} _.
Arguments getStartValue {T} _.
Arguments getEndValue {T} _.
Arguments getValue {T} _ _.

End Source.

Module Phrase.

(** Modelled from the spec: [Phrase.hpp] is not among the sources.  A phrase
    class [PhraseT] is constructed from a start time, an end time, a start
    value and an end value (extra constructor arguments are part of the
    chosen [kind]); what distinguishes one class from another is the
    value-at-time function these four determine. *)
Definition kind (T : Type) : Type := Q -> Q -> T -> T -> Q -> T.

(** Modelled from the spec: the constructed phrase reports the bounds it was
    constructed with. *)
Definition make {T : Type} (PhraseT : kind T)
  (startTime endTime : Q) (startValue endValue : T) : Source.t T :=
  Source.mk startTime endTime startValue endValue
            (PhraseT startTime endTime startValue endValue).

(** Modelled from the spec: [Hold], a constant value over a (possibly zero)
    duration; it holds the value it transitions to. *)
Definition Hold {T : Type} : kind T :=
  fun _ _ _ endValue _ => endValue.

(** Modelled from the spec: [RampTo] with linear easing, on rational
    values. *)
Definition RampTo : kind Q :=
  fun startTime endTime startValue endValue atTime =>
    (startValue
     + (endValue - startValue) * ((atTime - startTime) / (endTime - startTime)))%Q.

End Phrase.

(** ** The Sequence *)

Module Sequence.

(** The two time bounds are the fields of the base class [Source<T>]
    (modelled from the spec: [Source.h] is not among the sources); the
    phrase vector and the initial value are the private members. *)
Record t (T : Type) : Type := mk {
  _start_time : Q;
  _end_time : Q;
  _phrases : list (Source.t T);
  _initial_value : T
}.

Arguments mk {T} _ _ _ _.
Arguments _start_time {T} _.
Arguments _end_time {T} _.
Arguments _phrases {T} _.
Arguments _initial_value {T} _.

Section Operations.

Context {T : Type}.

Definition getStartTime (s : t T) : Q := _start_time s.

Definition getEndTime (s : t T) : Q := _end_time s.

Definition setEndTime (endTime : Q) (s : t T) : t T :=
  mk (_start_time s) endTime (_phrases s) (_initial_value s).

(** [explicit Sequence( const T &value )] *)
Definition of_value (value : T) : t T :=
  mk 0%Q 0%Q [] value.

(** [explicit Sequence( const std::vector<SourceRef<T>> &phrases )]: the
    initialisers read [phrases.front()] and [phrases.back()] unguarded. *)
Definition of_phrases (phrases : list (Source.t T)) : completion (t T) :=
  match list.head phrases, list.last phrases with
  | Some front, Some back =>
      Returns (mk (Source.getStartTime front) (Source.getEndTime back)
                  phrases (Source.getStartValue front))
  | _, _ => Undefined
  end.

Definition getEndValue (s : t T) : T :=
  match list.last (_phrases s) with
  | None => _initial_value s
  | Some back => Source.getEndValue back
  end.

Definition getStartValue (s : t T) : T := _initial_value s.

Definition getPhraseCount (s : t T) : nat := length (_phrases s).

Definition push_back (phrase : Source.t T) (s : t T) : t T :=
  mk (_start_time s) (_end_time s) (_phrases s ++ [phrase]) (_initial_value s).

(** [then<PhraseT>( value, duration, args... )] *)
Definition then_ (PhraseT : Phrase.kind T) (value : T) (duration : Q)
  (s : t T) : t T :=
  let phrase :=
    Phrase.make PhraseT (getEndTime s) (getEndTime s + duration)%Q
                (getEndValue s) value in
  setEndTime (Source.getEndTime phrase) (push_back phrase s).

(** [set( value )] *)
Definition set (value : T) (s : t T) : t T :=
  match _phrases s with
  | [] => mk (_start_time s) (_end_time s) (_phrases s) value
  | _ :: _ => then_ Phrase.Hold value 0%Q s
  end.

(** The [while] loop of [getValue]: the position at which the iterator
    stops and the phrase it points to there, or [None] when the iterator
    reaches [end()]. *)
Fixpoint scan (phrases : list (Source.t T)) (atTime : Q)
  : option (nat * Source.t T) :=
  match phrases with
  | [] => None
  | phrase :: rest =>
      if Time.ltb atTime (Source.getEndTime phrase)
      then Some (O, phrase)
      else match scan rest atTime with
           | Some (i, p) => Some (S i, p)
           | None => None
           end
  end.

(** [getValue( atTime )] *)
Definition getValue (s : t T) (atTime : Q) : T :=
  if Time.ltb atTime (getStartTime s) then _initial_value s
  else if Time.geb atTime (getEndTime s) then getEndValue s
  else match scan (_phrases s) atTime with
       | Some (_, phrase) => Source.getValue phrase atTime
       | None => getEndValue s
       end.

(** Which [return] statement of [getValue] is taken. *)
Inductive branch : Type :=
| InitialClamp
| EndClamp
| Delegate (i : nat) (phrase : Source.t T)
| Fallback.

Definition getValue_branch (s : t T) (atTime : Q) : branch :=
  if Time.ltb atTime (getStartTime s) then InitialClamp
  else if Time.geb atTime (getEndTime s) then EndClamp
  else match scan (_phrases s) atTime with
       | Some (i, phrase) => Delegate i phrase
       | None => Fallback
       end.

(** The value each [return] statement yields. *)
Definition branch_value (s : t T) (atTime : Q) (b : branch) : T :=
  match b with
  | InitialClamp => _initial_value s
  | EndClamp => getEndValue s
  | Delegate _ phrase => Source.getValue phrase atTime
  | Fallback => getEndValue s
  end.

(** *** Chains of fluent calls *)

Inductive call : Type :=
| CallThen (PhraseT : Phrase.kind T) (value : T) (duration : Q)
| CallSet (value : T).

Definition apply (c : call) (s : t T) : t T :=
  match c with
  | CallThen PhraseT value duration => then_ PhraseT value duration s
  | CallSet value => set value s
  end.

(** [s.c1.c2. ... .cn] *)
Definition chain (calls : list call) (s : t T) : t T :=
  fold_left (fun acc c => apply c acc) calls s.

Definition duration_of (c : call) : Q :=
  match c with
  | CallThen _ _ duration => duration
  | CallSet _ => 0%Q
  end.

(** *** The structural invariants of the data model *)

(** Each phrase starts where the one before it ends. *)
Definition contiguous (phrases : list (Source.t T)) : Prop :=
  forall (i : nat) p q,
    phrases !! i = Some p -> phrases !! S i = Some q ->
    (Source.getEndTime p == Source.getStartTime q)%Q.

(** Time runs forward inside each phrase. *)
Definition chronological (phrases : list (Source.t T)) : Prop :=
  forall p, In p phrases ->
    (Source.getStartTime p <= Source.getEndTime p)%Q.

(** The derived start time: 0 when empty, else the first phrase's. *)
Definition derived_start (phrases : list (Source.t T)) : Q :=
  match list.head phrases with
  | None => 0%Q
  | Some front => Source.getStartTime front
  end.

(** The derived end time: 0 when empty, else the last phrase's. *)
Definition derived_end (phrases : list (Source.t T)) : Q :=
  match list.last phrases with
  | None => 0%Q
  | Some back => Source.getEndTime back
  end.

Record invariants (s : t T) : Prop := {
  inv_contiguous : contiguous (_phrases s);
  inv_chronological : chronological (_phrases s);
  inv_start : (getStartTime s == derived_start (_phrases s))%Q;
  inv_end : (getEndTime s == derived_end (_phrases s))%Q
}.

(** Adjacent phrases agree on the boundary time and the boundary value. *)
Definition continuous_at (phrases : list (Source.t T)) (i : nat) : Prop :=
  forall p q,
    phrases !! i = Some p -> phrases !! S i = Some q ->
    (Source.getEndTime p == Source.getStartTime q)%Q
    /\ Source.getEndValue p = Source.getStartValue q.

(** [t] lies in the half-open interval of [p]. *)
Definition contains (p : Source.t T) (atTime : Q) : Prop :=
  (Source.getStartTime p <= atTime)%Q /\ (atTime < Source.getEndTime p)%Q.

(** *** Values of calls and cached bounds *)

(** The [value] argument of a call. *)
Definition value_of (c : call) : T :=
  match c with
  | CallThen _ value _ => value
  | CallSet value => value
  end.

Definition is_set (c : call) : bool :=
  match c with
  | CallThen _ _ _ => false
  | CallSet _ => true
  end.

(** The [value] argument of the last call of a chain, [v0] when there is no
    call. *)
Definition last_value (v0 : T) (calls : list call) : T :=
  fold_left (fun _ c => value_of c) calls v0.

(** The cached time bounds are the derived ones. *)
Definition bounds_cached (s : t T) : Prop :=
  (getStartTime s == derived_start (_phrases s))%Q
  /\ (getEndTime s == derived_end (_phrases s))%Q.

End Operations.

Arguments branch T : clear implicits.
Arguments call T : clear implicits.

End Sequence.

(** ** Sequences as shared objects *)

Module Store.

(** A [SequenceRef<T>] ([std::shared_ptr<Sequence<T>>]), or the address of
    a Sequence the caller holds: a key of the object store. *)
Abbreviation ref := nat (only parsing).

Section Heap.

Context {T : Type}.

(** A computation on the store of live Sequence objects; [None] stands for
    the use of a reference that does not point to a live Sequence. *)
Definition M (A : Type) : Type :=
  gmap nat (Sequence.t T) -> option (A * gmap nat (Sequence.t T)).

Definition ret {A : Type} (a : A) : M A :=
  fun h => Some (a, h).

Definition bind {A B : Type} (m : M A) (k : A -> M B) : M B :=
  fun h =>
    match m h with
    | Some (a, h') => k a h'
    | None => None
    end.

(** [*r] *)
Definition read (r : ref) : M (Sequence.t T) :=
  fun h =>
    match h !! r with
    | Some s => Some (s, h)
    | None => None
    end.

(** Run a mutating member function on the object [r] points to. *)
Definition update (r : ref) (f : Sequence.t T -> Sequence.t T) : M unit :=
  fun h =>
    match h !! r with
    | Some s => Some (tt, <[r := f s]> h)
    | None => None
    end.

(** [std::make_shared<SequenceT>( s )]: a new object, at an address no live
    object has. *)
Definition make_shared (s : Sequence.t T) : M ref :=
  fun h => let r := fresh (dom h) in Some (r, <[r := s]> h).

(** [copy()]: the copy constructor copies the time bounds, the vector of
    phrase handles and the initial value into the new object. *)
Definition copy (this : ref) : M ref :=
  bind (read this) (fun s =>
  make_shared (Sequence.mk (Sequence._start_time s) (Sequence._end_time s)
                           (Sequence._phrases s) (Sequence._initial_value s))).

(** [then<PhraseT>( value, duration )]; returns [*this]. *)
Definition then_ (PhraseT : Phrase.kind T) (value : T) (duration : Q)
  (this : ref) : M ref :=
  bind (update this (Sequence.then_ PhraseT value duration)) (fun _ =>
  ret this).

(** [set( value )]; returns [*this]. *)
Definition set (value : T) (this : ref) : M ref :=
  bind (update this (Sequence.set value)) (fun _ =>
  ret this).

Definition getPhraseCount (this : ref) : M nat :=
  bind (read this) (fun s => ret (Sequence.getPhraseCount s)).

Definition getEndValue (this : ref) : M T :=
  bind (read this) (fun s => ret (Sequence.getEndValue s)).

Definition getEndTime (this : ref) : M Q :=
  bind (read this) (fun s => ret (Sequence.getEndTime s)).

Definition apply (c : Sequence.call T) (this : ref) : M ref :=
  match c with
  | Sequence.CallThen PhraseT value duration => then_ PhraseT value duration this
  | Sequence.CallSet value => set value this
  end.

(** [this->c1.c2. ... .cn]: each call is made on the reference the one
    before it returned. *)
Fixpoint chain (calls : list (Sequence.call T)) (this : ref) : M ref :=
  match calls with
  | [] => ret this
  | c :: rest => bind (apply c this) (chain rest)
  end.

End Heap.

End Store.

(** ** Time as the source computes it *)

Module Clock.

(** What the source does with times: the literal [0], [+], [<] and [>=];
    and which values of the carrier are times at all. *)
Record t : Type := mk {
  time : Type;
  valid : time -> Prop;
  zero : time;
  add : time -> time -> time;
  ltb : time -> time -> bool;
  geb : time -> time -> bool
}.

(** Exact rational time, as in [Sequence]. *)
Definition exact : t := mk Q (fun _ => True) 0%Q Qplus Time.ltb Time.geb.

(** C++ [float]: IEEE 754 binary32 with round to nearest even; a
    comparison with a NaN is false.  The times are the well-formed
    binary32 numbers, infinities and NaN. *)
Definition binary32 : t :=
  mk spec_float (fun x => valid_binary 24 128 x = true)
     (S754_zero false) (SFadd 24 128) SFltb (fun x y => SFleb y x).

(** The binary32 number nearest to [m * 2^e]. *)
Definition float (m e : Z) : spec_float := binary_normalize 24 128 m e false.



End Clock.

(** ** The Sequence on any clock *)

(** The code of [Sequence.hpp] once more, with the arithmetic of times a
    parameter: every definition is the one of the same name above with
    [Clock.add], [Clock.ltb] and [Clock.geb] for [+], [<] and [>=]. *)
Module Clocked.

Module Source.

(** Modelled from the spec: [Source.h] is not among the sources. *)
Record t (C : Clock.t) (T : Type) : Type := mk {
  getStartTime : Clock.time C;
  getEndTime : Clock.time C;
  getStartValue : T;
  getEndValue : T;
  getValue : Clock.time C -> T
}.

Arguments mk {C T} _ _ _ _ _.
Arguments getStartTime {C T} _.
Arguments getEndTime {C T} _.
Arguments getStartValue {C T} _.
Arguments getEndValue {C T} _.
Arguments getValue {C T} _ _.

End Source.

Module Phrase.

(** Modelled from the spec: [Phrase.hpp] is not among the sources. *)
Definition kind (C : Clock.t) (T : Type) : Type :=
  Clock.time C -> Clock.time C -> T -> T -> Clock.time C -> T.

(** Modelled from the spec: the constructed phrase reports the bounds it was
    constructed with. *)
Definition make {C : Clock.t} {T : Type} (PhraseT : kind C T)
  (startTime endTime : Clock.time C) (startValue endValue : T) : Source.t C T :=
  Source.mk startTime endTime startValue endValue
            (PhraseT startTime endTime startValue endValue).

(** Modelled from the spec: [Hold]. *)
Definition Hold {C : Clock.t} {T : Type} : kind C T :=
  fun _ _ _ endValue _ => endValue.

End Phrase.

Module Sequence.

Record t (C : Clock.t) (T : Type) : Type := mk {
  _start_time : Clock.time C;
  _end_time : Clock.time C;
  _phrases : list (Source.t C T);
  _initial_value : T
}.

Arguments mk {C T} _ _ _ _.
Arguments _start_time {C T} _.
Arguments _end_time {C T} _.
Arguments _phrases {C T} _.
Arguments _initial_value {C T} _.

Section Operations.

Context {C : Clock.t} {T : Type}.

Definition getStartTime (s : t C T) : Clock.time C := _start_time s.

Definition getEndTime (s : t C T) : Clock.time C := _end_time s.

Definition setEndTime (endTime : Clock.time C) (s : t C T) : t C T :=
  mk (_start_time s) endTime (_phrases s) (_initial_value s).

(** [explicit Sequence( const T &value )] *)
Definition of_value (value : T) : t C T :=
  mk (Clock.zero C) (Clock.zero C) [] value.

(** [explicit Sequence( const std::vector<SourceRef<T>> &phrases )] *)
Definition of_phrases (phrases : list (Source.t C T)) : completion (t C T) :=
  match list.head phrases, list.last phrases with
  | Some front, Some back =>
      Returns (mk (Source.getStartTime front) (Source.getEndTime back)
                  phrases (Source.getStartValue front))
  | _, _ => Undefined
  end.

Definition getEndValue (s : t C T) : T :=
  match list.last (_phrases s) with
  | None => _initial_value s
  | Some back => Source.getEndValue back
  end.

Definition getPhraseCount (s : t C T) : nat := length (_phrases s).

Definition push_back (phrase : Source.t C T) (s : t C T) : t C T :=
  mk (_start_time s) (_end_time s) (_phrases s ++ [phrase]) (_initial_value s).

(** [then<PhraseT>( value, duration, args... )] *)
Definition then_ (PhraseT : Phrase.kind C T) (value : T)
  (duration : Clock.time C) (s : t C T) : t C T :=
  let phrase :=
    Phrase.make PhraseT (getEndTime s) (Clock.add C (getEndTime s) duration)
                (getEndValue s) value in
  setEndTime (Source.getEndTime phrase) (push_back phrase s).

(** [set( value )] *)
Definition set (value : T) (s : t C T) : t C T :=
  match _phrases s with
  | [] => mk (_start_time s) (_end_time s) (_phrases s) value
  | _ :: _ => then_ Phrase.Hold value (Clock.zero C) s
  end.

(** The [while] loop of [getValue]. *)
Fixpoint scan (phrases : list (Source.t C T)) (atTime : Clock.time C)
  : option (nat * Source.t C T) :=
  match phrases with
  | [] => None
  | phrase :: rest =>
      if Clock.ltb C atTime (Source.getEndTime phrase)
      then Some (O, phrase)
      else match scan rest atTime with
           | Some (i, p) => Some (S i, p)
           | None => None
           end
  end.

(** [getValue( atTime )] *)
Definition getValue (s : t C T) (atTime : Clock.time C) : T :=
  if Clock.ltb C atTime (getStartTime s) then _initial_value s
  else if Clock.geb C atTime (getEndTime s) then getEndValue s
  else match scan (_phrases s) atTime with
       | Some (_, phrase) => Source.getValue phrase atTime
       | None => getEndValue s
       end.

(** Which [return] statement of [getValue] is taken. *)
Inductive branch : Type :=
| InitialClamp
| EndClamp
| Delegate (i : nat) (phrase : Source.t C T)
| Fallback.

Definition getValue_branch (s : t C T) (atTime : Clock.time C) : branch :=
  if Clock.ltb C atTime (getStartTime s) then InitialClamp
  else if Clock.geb C atTime (getEndTime s) then EndClamp
  else match scan (_phrases s) atTime with
       | Some (i, phrase) => Delegate i phrase
       | None => Fallback
       end.

Inductive call : Type :=
| CallThen (PhraseT : Phrase.kind C T) (value : T) (duration : Clock.time C)
| CallSet (value : T).

Definition apply (c : call) (s : t C T) : t C T :=
  match c with
  | CallThen PhraseT value duration => then_ PhraseT value duration s
  | CallSet value => set value s
  end.

(** [s.c1.c2. ... .cn] *)
Definition chain (calls : list call) (s : t C T) : t C T :=
  fold_left (fun acc c => apply c acc) calls s.

Definition duration_of (c : call) : Clock.time C :=
  match c with
  | CallThen _ _ duration => duration
  | CallSet _ => Clock.zero C
  end.

Definition is_set (c : call) : bool :=
  match c with
  | CallThen _ _ _ => false
  | CallSet _ => true
  end.


(** The cached end time is the very end time of the last phrase, and a
    Sequence without phrases starts when it ends. *)
Definition end_is_last (s : t C T) : Prop :=
  (forall back, list.last (_phrases s) = Some back ->
                getEndTime s = Source.getEndTime back)
  /\ (_phrases s = [] -> getStartTime s = getEndTime s).

End Operations.

Arguments branch C T : clear implicits.
Arguments call C T : clear implicits.

End Sequence.

End Clocked.

(** *** The exact-time Sequence is the Sequence on the exact clock *)

Definition of_exact_source {T : Type} (p : Source.t T)
  : Clocked.Source.t Clock.exact T :=
  Clocked.Source.mk (C := Clock.exact)
    (Source.getStartTime p) (Source.getEndTime p)
    (Source.getStartValue p) (Source.getEndValue p) (Source.getValue p).

Definition of_exact {T : Type} (s : Sequence.t T)
  : Clocked.Sequence.t Clock.exact T :=
  Clocked.Sequence.mk (C := Clock.exact)
    (Sequence._start_time s) (Sequence._end_time s)
    (of_exact_source <$> Sequence._phrases s) (Sequence._initial_value s).

(** ** The scenarios of the specification *)

Module Scenario.

Local Open Scope Q_scope.

(** [Sequence<float> s(0); s.then<RampTo>(10, 1).then<Hold>(10, 1);] *)
Definition ramp_hold_calls : list (Sequence.call Q) :=
  [Sequence.CallThen Phrase.RampTo 10 1; Sequence.CallThen Phrase.Hold 10 1].

Definition ramp_hold : Sequence.t Q :=
  Sequence.chain ramp_hold_calls (Sequence.of_value 0).

(** [Sequence<float> s(5); s.set(7);] *)
Definition set_on_empty : Sequence.t Q :=
  Sequence.set 7 (Sequence.of_value 5).

(** Two phrases [p1], [p2] and [Sequence<float> s({p1, p2});] *)
Definition p1 : Source.t Q := Phrase.make Phrase.RampTo 0 1 0 10.

Definition p2 : Source.t Q := Phrase.make Phrase.Hold 1 2 10 10.

Definition from_phrases : Sequence.t Q :=
  match Sequence.of_phrases [p1; p2] with
  | Returns s => s
  | _ => Sequence.of_value 0
  end.

(** [s.then<RampTo>(10, 1).set(7).then<Hold>(7, 1);]: a zero-duration Hold
    between two phrases. *)
Definition ramp_set_hold : Sequence.t Q :=
  Sequence.chain
    [Sequence.CallThen Phrase.RampTo 10 1; Sequence.CallSet 7;
     Sequence.CallThen Phrase.Hold 7 1]
    (Sequence.of_value 0).

(** [Sequence<float> s(0); s.then<Hold>(5, -1);] *)
Definition backwards : Sequence.t Q :=
  Sequence.then_ Phrase.Hold 5 (-1) (Sequence.of_value 0).

(** A store with one Sequence, at address 3. *)
Definition one_object : gmap nat (Sequence.t Q) :=
  <[3%nat := ramp_hold]> ∅.

(** [s.then<RampTo>(10, 1).set(7).set(8).then<Hold>(8, 1);]: two
    zero-duration Holds at the same instant. *)
Definition ramp_set_set_hold : Sequence.t Q :=
  Sequence.chain
    [Sequence.CallThen Phrase.RampTo 10 1; Sequence.CallSet 7;
     Sequence.CallSet 8; Sequence.CallThen Phrase.Hold 8 1]
    (Sequence.of_value 0).

(** In [float]: [s.then<Hold>(1, 16777216).then<Hold>(2, 1).then<Hold>(3, 1);] *)
Definition large_calls : list (Clocked.Sequence.call Clock.binary32 Q) :=
  [Clocked.Sequence.CallThen (C := Clock.binary32) Clocked.Phrase.Hold 1
                             (Clock.float 16777216 0);
   Clocked.Sequence.CallThen (C := Clock.binary32) Clocked.Phrase.Hold 2
                             (Clock.float 1 0);
   Clocked.Sequence.CallThen (C := Clock.binary32) Clocked.Phrase.Hold 3
                             (Clock.float 1 0)].

Definition large : Clocked.Sequence.t Clock.binary32 Q :=
  Clocked.Sequence.chain large_calls (Clocked.Sequence.of_value 0).

(** In [float]: [Sequence<float> s(0); s.then<Hold>(5, 1);] *)
Definition one_second : Clocked.Sequence.t Clock.binary32 Q :=
  Clocked.Sequence.then_ (C := Clock.binary32) Clocked.Phrase.Hold 5
                         (Clock.float 1 0) (Clocked.Sequence.of_value 0).

(** In [float]: a phrase from 1 to 2, [Sequence<float> s({p});] and a call
    with the duration -1/2. *)
Definition float_phrase : Clocked.Source.t Clock.binary32 Q :=
  Clocked.Phrase.make (C := Clock.binary32) Clocked.Phrase.Hold
                      (Clock.float 1 0) (Clock.float 2 0) 0 1.

Definition float_from_phrase : Clocked.Sequence.t Clock.binary32 Q :=
  Clocked.Sequence.mk (C := Clock.binary32) (Clock.float 1 0) (Clock.float 2 0)
                      [float_phrase] 0.

Definition float_back_calls : list (Clocked.Sequence.call Clock.binary32 Q) :=
  [Clocked.Sequence.CallThen (C := Clock.binary32) Clocked.Phrase.Hold 5
                             (Clock.float (-1) (-1))].


End Scenario.

(** * Properties *)

(** ** The comparisons *)

(** Decides a comparison of two concrete times. *)
Ltac time_fact := vm_compute; first [reflexivity | discriminate].

(** Proves that the durations of a concrete chain are non-negative. *)
Ltac nonneg_durations := repeat (constructor; [time_fact|]); constructor.

Lemma ltb_lt (x y : Q) : Time.ltb x y = true <-> (x < y)%Q.
Proof. unfold Time.ltb, Qlt. apply Z.ltb_lt. Qed.

Lemma ltb_ge (x y : Q) : Time.ltb x y = false <-> (y <= x)%Q.
Proof. unfold Time.ltb, Qle. apply Z.ltb_ge. Qed.

Lemma geb_ge (x y : Q) : Time.geb x y = true <-> (y <= x)%Q.
Proof. unfold Time.geb, Qle. apply Z.leb_le. Qed.

Lemma geb_lt (x y : Q) : Time.geb x y = false <-> (x < y)%Q.
Proof. unfold Time.geb, Qlt. apply Z.leb_gt. Qed.

(** ** Lookup: [getValue] *)

Section Lookup.

Context {T : Type}.

Implicit Types (s : Sequence.t T) (p q : Source.t T) (l : list (Source.t T)).
Implicit Types (t : Q) (i j : nat).

(** Where the loop stops: at the first phrase that ends after [t]. *)
Lemma scan_Some l t i p :
  Sequence.scan l t = Some (i, p) ->
  l !! i = Some p
  /\ (t < Source.getEndTime p)%Q
  /\ forall j q, (j < i)%nat -> l !! j = Some q -> (Source.getEndTime q <= t)%Q.
Proof.
  revert i p. induction l as [|a l IH]; intros i p; simpl; [discriminate|].
  destruct (Time.ltb t (Source.getEndTime a)) eqn:E.
  - intros [= <- <-]. apply ltb_lt in E. repeat split; auto. intros j q Hj. lia.
  - destruct (Sequence.scan l t) as [[i' p']|] eqn:Es; [|discriminate].
    intros [= <- <-]. destruct (IH _ _ eq_refl) as (Hl & Hlt & Hfirst).
    apply ltb_ge in E. repeat split; auto.
    intros [|j] q Hj; simpl.
    + intros [= <-]. exact E.
    + apply Hfirst. lia.
Qed.

(** When the loop runs off the end, every phrase has ended by [t]. *)
Lemma scan_None l t :
  Sequence.scan l t = None ->
  forall j q, l !! j = Some q -> (Source.getEndTime q <= t)%Q.
Proof.
  induction l as [|a l IH]; simpl; intros H j q Hq; [discriminate|].
  destruct (Time.ltb t (Source.getEndTime a)) eqn:E; [discriminate|].
  destruct (Sequence.scan l t) as [[i' p']|] eqn:Es; [discriminate|].
  destruct j as [|j]; simpl in Hq.
  - injection Hq as <-. now apply ltb_ge.
  - eauto.
Qed.

(** The loop stops inside the vector as soon as the last phrase ends after
    [t]. *)
Lemma scan_finds l t :
  l <> [] -> (t < Sequence.derived_end l)%Q ->
  exists i p, Sequence.scan l t = Some (i, p).
Proof.
  intros Hne Ht. destruct (Sequence.scan l t) as [[i p]|] eqn:Es; [eauto|].
  exfalso. unfold Sequence.derived_end in Ht.
  destruct (list.last l) as [b|] eqn:Hb.
  - rewrite last_lookup in Hb. pose proof (scan_None _ _ Es _ _ Hb). lra.
  - apply last_None in Hb. contradiction.
Qed.

(** [getValue] returns what the [return] statement it takes yields. *)
Lemma getValue_branch_value s t :
  Sequence.getValue s t
  = Sequence.branch_value s t (Sequence.getValue_branch s t).
Proof.
  unfold Sequence.getValue, Sequence.getValue_branch.
  destruct (Time.ltb t (Sequence.getStartTime s)); [reflexivity|].
  destruct (Time.geb t (Sequence.getEndTime s)); [reflexivity|].
  destruct (Sequence.scan (Sequence._phrases s) t) as [[i p]|]; reflexivity.
Qed.

(** In a contiguous, chronological vector the phrases are in time order. *)
Lemma ordered l i j p q :
  Sequence.contiguous l -> Sequence.chronological l ->
  (i < j)%nat -> l !! i = Some p -> l !! j = Some q ->
  (Source.getEndTime p <= Source.getStartTime q)%Q.
Proof.
  intros Hc Hch. revert q. induction j as [|j IH]; intros q Hij Hp Hq; [lia|].
  destruct (lookup_lt_is_Some_2 l j) as [r Hr].
  { apply lookup_lt_Some in Hq. lia. }
  pose proof (Hc _ _ _ Hr Hq) as Hrq.
  destruct (decide (i = j)) as [->|Hne].
  - rewrite Hp in Hr. injection Hr as ->. lra.
  - assert (Source.getEndTime p <= Source.getStartTime r)%Q by (apply IH; auto; lia).
    assert (Source.getStartTime r <= Source.getEndTime r)%Q.
    { apply Hch. apply list_elem_of_In. eapply list_elem_of_lookup_2; eauto. }
    lra.
Qed.

(** The phrase the loop stops at starts no later than [t]. *)
Lemma scan_starts_before s t i p :
  Sequence.contiguous (Sequence._phrases s) ->
  (Sequence.getStartTime s == Sequence.derived_start (Sequence._phrases s))%Q ->
  (Sequence.getStartTime s <= t)%Q ->
  Sequence.scan (Sequence._phrases s) t = Some (i, p) ->
  (Source.getStartTime p <= t)%Q.
Proof.
  intros Hc Hs Ht Hscan. destruct (scan_Some _ _ _ _ Hscan) as (Hl & _ & Hfirst).
  destruct i as [|i].
  - unfold Sequence.derived_start in Hs. rewrite head_lookup, Hl in Hs. lra.
  - destruct (lookup_lt_is_Some_2 (Sequence._phrases s) i) as [r Hr].
    { apply lookup_lt_Some in Hl. lia. }
    pose proof (Hc _ _ _ Hr Hl). pose proof (Hfirst i r ltac:(lia) Hr). lra.
Qed.

(** Between the two guards the loop stops at a phrase, and [getValue]
    returns that phrase's value. *)
Lemma in_range_delegates s t :
  (Sequence.getStartTime s == Sequence.derived_start (Sequence._phrases s))%Q ->
  (Sequence.getEndTime s == Sequence.derived_end (Sequence._phrases s))%Q ->
  (Sequence.getStartTime s <= t)%Q -> (t < Sequence.getEndTime s)%Q ->
  exists i p,
    Sequence.scan (Sequence._phrases s) t = Some (i, p)
    /\ Sequence.getValue_branch s t = Sequence.Delegate i p
    /\ Sequence.getValue s t = Source.getValue p t.
Proof.
  intros Hs He Hlo Hhi.
  assert (Hne : Sequence._phrases s <> []).
  { intros Hnil. rewrite Hnil in Hs, He.
    unfold Sequence.derived_start, Sequence.derived_end in *. simpl in *. lra. }
  destruct (scan_finds (Sequence._phrases s) t Hne) as (i & p & Hscan); [lra|].
  exists i, p. split; [exact Hscan|].
  unfold Sequence.getValue, Sequence.getValue_branch.
  apply ltb_ge in Hlo. apply geb_lt in Hhi. rewrite Hlo, Hhi, Hscan. auto.
Qed.

(** C1. In a Sequence that satisfies the structural invariants, a query at
    [t] with [startTime <= t < endTime] is answered by the first phrase
    whose end time is after [t]; that phrase contains [t] in its interval
    [[startTime, endTime)], it is the only phrase that does, and the result
    is that phrase's own value at [t]. *)
Theorem getValue_in_range s t :
  Sequence.invariants s ->
  (Sequence.getStartTime s <= t)%Q -> (t < Sequence.getEndTime s)%Q ->
  exists i p,
    Sequence._phrases s !! i = Some p
    /\ (t < Source.getEndTime p)%Q
    /\ (forall j q, (j < i)%nat -> Sequence._phrases s !! j = Some q ->
                    (Source.getEndTime q <= t)%Q)
    /\ Sequence.contains p t
    /\ (forall j q, Sequence._phrases s !! j = Some q ->
                    Sequence.contains q t -> j = i)
    /\ Sequence.getValue s t = Source.getValue p t.
Proof.
  intros [Hc Hch Hs He] Hlo Hhi.
  destruct (in_range_delegates s t Hs He Hlo Hhi) as (i & p & Hscan & _ & Hv).
  destruct (scan_Some _ _ _ _ Hscan) as (Hl & Hlt & Hfirst).
  pose proof (scan_starts_before s t i p Hc Hs Hlo Hscan) as Hstart.
  exists i, p. repeat split; auto.
  intros j q Hq [Hq1 Hq2].
  destruct (lt_eq_lt_dec j i) as [[Hji|Heq]|Hij]; [|exact Heq|].
  - pose proof (Hfirst j q Hji Hq). lra.
  - pose proof (ordered _ _ _ _ _ Hc Hch Hij Hl Hq). lra.
Qed.

(** C2 (as amended). Before the start time [getValue] returns the initial
    value; at or after the end time, and not before the start time, it
    returns [getEndValue()].  So in every Sequence whose start time is not
    after its end time, every query at or after the end time returns
    [getEndValue()]. *)
Theorem getValue_clamps s t :
  ((t < Sequence.getStartTime s)%Q ->
   Sequence.getValue s t = Sequence._initial_value s)
  /\ ((Sequence.getStartTime s <= t)%Q -> (Sequence.getEndTime s <= t)%Q ->
      Sequence.getValue s t = Sequence.getEndValue s)
  /\ ((Sequence.getStartTime s <= Sequence.getEndTime s)%Q ->
      (Sequence.getEndTime s <= t)%Q ->
      Sequence.getValue s t = Sequence.getEndValue s).
Proof.
  assert (Hend : (Sequence.getStartTime s <= t)%Q ->
                 (Sequence.getEndTime s <= t)%Q ->
                 Sequence.getValue s t = Sequence.getEndValue s).
  { intros H1 H2. unfold Sequence.getValue.
    apply ltb_ge in H1. apply geb_ge in H2. now rewrite H1, H2. }
  split; [|split].
  - intros H. unfold Sequence.getValue. apply ltb_lt in H. now rewrite H.
  - exact Hend.
  - intros H1 H2. apply Hend; [lra|exact H2].
Qed.

(** C8. When the cached time bounds are the derived ones (the first
    phrase's start and the last phrase's end, both 0 for an empty vector),
    a query that passes the two guards never takes the final [return]: the
    loop stops at a phrase of the vector and [getValue] returns from inside
    it.  Contiguity and time order of the phrases are not needed. *)
Theorem fallback_unreachable s t :
  (Sequence.getStartTime s == Sequence.derived_start (Sequence._phrases s))%Q ->
  (Sequence.getEndTime s == Sequence.derived_end (Sequence._phrases s))%Q ->
  (Sequence.getStartTime s <= t)%Q -> (t < Sequence.getEndTime s)%Q ->
  Sequence.getValue_branch s t <> Sequence.Fallback
  /\ exists i p,
       Sequence._phrases s !! i = Some p
       /\ (t < Source.getEndTime p)%Q
       /\ Sequence.getValue_branch s t = Sequence.Delegate i p.
Proof.
  intros Hs He Hlo Hhi.
  destruct (in_range_delegates s t Hs He Hlo Hhi) as (i & p & Hscan & Hb & _).
  destruct (scan_Some _ _ _ _ Hscan) as (Hl & Hlt & _).
  split; [rewrite Hb; discriminate|]. exists i, p. auto.
Qed.

(** C10. In a Sequence that satisfies the structural invariants, a phrase
    that [getValue(t)] delegates to contains [t] in its interval, so it is
    not a zero-duration phrase.  A query at the instant of a zero-duration
    phrase (such as the Hold that [set] appends) is answered by the end
    clamp or by a later phrase, every phrase in between being a
    zero-duration phrase at the same instant. *)
Theorem delegate_in_domain s :
  Sequence.invariants s ->
  (forall t i p,
     Sequence.getValue_branch s t = Sequence.Delegate i p ->
     Sequence._phrases s !! i = Some p
     /\ Sequence.contains p t
     /\ ~ (Source.getStartTime p == Source.getEndTime p)%Q)
  /\ (forall t i z,
        Sequence._phrases s !! i = Some z ->
        (Source.getStartTime z == t)%Q -> (Source.getEndTime z == t)%Q ->
        match Sequence.getValue_branch s t with
        | Sequence.EndClamp => True
        | Sequence.Delegate j q =>
            (i < j)%nat
            /\ forall k r, (i < k < j)%nat -> Sequence._phrases s !! k = Some r ->
                 (Source.getStartTime r == t)%Q /\ (Source.getEndTime r == t)%Q
        | _ => False
        end).
Proof.
  intros [Hc Hch Hs He]. split.
  - intros t i p. unfold Sequence.getValue_branch.
    destruct (Time.ltb t (Sequence.getStartTime s)) eqn:E1; [discriminate|].
    destruct (Time.geb t (Sequence.getEndTime s)) eqn:E2; [discriminate|].
    destruct (Sequence.scan (Sequence._phrases s) t) as [[i' p']|] eqn:Hscan;
      [|discriminate].
    intros [= -> ->]. apply ltb_ge in E1.
    destruct (scan_Some _ _ _ _ Hscan) as (Hl & Hlt & _).
    pose proof (scan_starts_before s t i p Hc Hs E1 Hscan).
    unfold Sequence.contains. repeat split; auto. lra.
  - intros t i z Hz Hz1 Hz2.
    assert (Hlo : (Sequence.getStartTime s <= t)%Q).
    { destruct i as [|i].
      - unfold Sequence.derived_start in Hs. rewrite head_lookup, Hz in Hs. lra.
      - destruct (lookup_lt_is_Some_2 (Sequence._phrases s) 0) as [f Hf].
        { apply lookup_lt_Some in Hz. lia. }
        unfold Sequence.derived_start in Hs. rewrite head_lookup, Hf in Hs.
        pose proof (ordered _ 0%nat (S i) _ _ Hc Hch ltac:(lia) Hf Hz).
        assert (Source.getStartTime f <= Source.getEndTime f)%Q.
        { apply Hch. apply list_elem_of_In. eapply list_elem_of_lookup_2; eauto. }
        lra. }
    unfold Sequence.getValue_branch.
    apply ltb_ge in Hlo. rewrite Hlo.
    destruct (Time.geb t (Sequence.getEndTime s)) eqn:E2; [exact I|].
    apply geb_lt in E2.
    destruct (Sequence.scan (Sequence._phrases s) t) as [[j q]|] eqn:Hscan.
    + destruct (scan_Some _ _ _ _ Hscan) as (Hl & Hlt & Hfirst).
      assert (Hij : (i < j)%nat).
      { destruct (lt_eq_lt_dec j i) as [[Hji|Heq]|Hij]; [| |exact Hij].
        - pose proof (ordered _ _ _ _ _ Hc Hch Hji Hl Hz). lra.
        - subst j. rewrite Hz in Hl. injection Hl as ->. lra. }
      split; [exact Hij|]. intros k r [Hik Hkj] Hr.
      pose proof (Hfirst k r Hkj Hr).
      pose proof (ordered _ _ _ _ _ Hc Hch Hik Hz Hr).
      assert (Source.getStartTime r <= Source.getEndTime r)%Q.
      { apply Hch. apply list_elem_of_In. eapply list_elem_of_lookup_2; eauto. }
      split; lra.
    + pose proof (scan_None _ _ Hscan _ _ Hz) as _.
      unfold Sequence.derived_end in He.
      destruct (list.last (Sequence._phrases s)) as [b|] eqn:Hb.
      * rewrite last_lookup in Hb. pose proof (scan_None _ _ Hscan _ _ Hb). lra.
      * apply last_None in Hb. rewrite Hb in Hz. discriminate.
Qed.

End Lookup.

(** ** Building: [then], [set] and chains of them *)

Section Building.

Context {T : Type}.

Implicit Types (s : Sequence.t T) (p q : Source.t T) (l : list (Source.t T)).
Implicit Types (K : Phrase.kind T) (v : T) (d : Q) (c : Sequence.call T).

Lemma then_phrases K v d s :
  Sequence._phrases (Sequence.then_ K v d s)
  = Sequence._phrases s
    ++ [Phrase.make K (Sequence.getEndTime s) (Sequence.getEndTime s + d)%Q
                    (Sequence.getEndValue s) v].
Proof. reflexivity. Qed.

Lemma then_end_time K v d s :
  Sequence.getEndTime (Sequence.then_ K v d s) = (Sequence.getEndTime s + d)%Q.
Proof. reflexivity. Qed.

Lemma then_start_time K v d s :
  Sequence.getStartTime (Sequence.then_ K v d s) = Sequence.getStartTime s.
Proof. reflexivity. Qed.

Lemma then_end_value K v d s :
  Sequence.getEndValue (Sequence.then_ K v d s) = v.
Proof. unfold Sequence.getEndValue. rewrite then_phrases, last_snoc. reflexivity. Qed.

Lemma phrases_empty_or_not s :
  Sequence._phrases s = [] \/ Sequence._phrases s <> [].
Proof. destruct (Sequence._phrases s); [left|right]; congruence. Qed.

Lemma set_empty v s :
  Sequence._phrases s = [] ->
  Sequence.set v s
  = Sequence.mk (Sequence._start_time s) (Sequence._end_time s) [] v.
Proof. unfold Sequence.set. intros ->. reflexivity. Qed.

Lemma set_nonempty v s :
  Sequence._phrases s <> [] ->
  Sequence.set v s = Sequence.then_ Phrase.Hold v 0%Q s.
Proof. unfold Sequence.set. destruct (Sequence._phrases s); [contradiction|reflexivity]. Qed.

Lemma apply_start_time c s :
  Sequence.getStartTime (Sequence.apply c s) = Sequence.getStartTime s.
Proof.
  destruct c as [K v d|v]; simpl; [reflexivity|].
  unfold Sequence.set. destruct (Sequence._phrases s); reflexivity.
Qed.

Lemma apply_end_time c s :
  (Sequence.getEndTime (Sequence.apply c s)
   == Sequence.getEndTime s + Sequence.duration_of c)%Q.
Proof.
  destruct c as [K v d|v]; simpl; [reflexivity|].
  unfold Sequence.set. destruct (Sequence._phrases s).
  - unfold Sequence.getEndTime. simpl. lra.
  - reflexivity.
Qed.

(** Every call leaves the phrases there are in place and appends at most
    one. *)
Lemma apply_phrases c s :
  exists appended,
    Sequence._phrases (Sequence.apply c s) = Sequence._phrases s ++ appended.
Proof.
  destruct c as [K v d|v]; simpl.
  - eexists. apply then_phrases.
  - unfold Sequence.set. destruct (Sequence._phrases s) eqn:E.
    + exists []. reflexivity.
    + eexists. rewrite then_phrases, E. reflexivity.
Qed.

Lemma chain_snoc (calls : list (Sequence.call T)) c s :
  Sequence.chain (calls ++ [c]) s = Sequence.apply c (Sequence.chain calls s).
Proof. unfold Sequence.chain. rewrite fold_left_app. reflexivity. Qed.

Lemma chain_cons (calls : list (Sequence.call T)) c s :
  Sequence.chain (c :: calls) s = Sequence.chain calls (Sequence.apply c s).
Proof. reflexivity. Qed.

Lemma chain_start_time (calls : list (Sequence.call T)) s :
  Sequence.getStartTime (Sequence.chain calls s) = Sequence.getStartTime s.
Proof.
  revert s. induction calls as [|c calls IH]; intros s; [reflexivity|].
  rewrite chain_cons, IH. apply apply_start_time.
Qed.

(** *** The invariants are kept *)

Lemma of_value_invariants v : Sequence.invariants (Sequence.of_value v).
Proof.
  split; simpl.
  - intros i p q H. rewrite lookup_nil in H. discriminate.
  - intros p [].
  - reflexivity.
  - reflexivity.
Qed.

Lemma then_invariants K v d s :
  (0 <= d)%Q -> Sequence.invariants s ->
  Sequence.invariants (Sequence.then_ K v d s).
Proof.
  intros Hd [Hc Hch Hs He].
  set (l := Sequence._phrases s) in *.
  split; rewrite ?then_phrases, ?then_end_time, ?then_start_time; fold l.
  - intros i p q Hp Hq.
    destruct (decide (S i < length l)%nat) as [Hlt|Hge].
    + rewrite lookup_app_l in Hp by lia. rewrite lookup_app_l in Hq by lia. eauto.
    + assert (Hi : S i = length l).
      { apply lookup_lt_Some in Hq. rewrite length_app in Hq. simpl in Hq. lia. }
      rewrite lookup_app_l in Hp by lia.
      rewrite lookup_app_r, Hi, Nat.sub_diag in Hq by lia.
      injection Hq as <-. simpl.
      unfold Sequence.derived_end in He. rewrite last_lookup in He.
      replace (pred (length l)) with i in He by lia. rewrite Hp in He. lra.
  - intros p Hp. apply in_app_or in Hp. destruct Hp as [Hp|[<-|[]]]; [auto|].
    simpl. lra.
  - unfold Sequence.derived_start in *. rewrite head_snoc.
    destruct (list.head l) as [f|] eqn:Hf; [exact Hs|]. simpl.
    apply head_None in Hf. unfold Sequence.derived_end in He.
    rewrite Hf in He. simpl in He. lra.
  - unfold Sequence.derived_end. rewrite last_snoc. reflexivity.
Qed.

Lemma set_invariants v s :
  Sequence.invariants s -> Sequence.invariants (Sequence.set v s).
Proof.
  intros H. unfold Sequence.set. destruct (Sequence._phrases s) eqn:E.
  - destruct H as [Hc Hch Hs He]. rewrite E in *. split; simpl; auto.
  - apply then_invariants; [lra|exact H].
Qed.

(** Every Sequence built from a value by calls with non-negative durations
    satisfies the structural invariants. *)
Lemma chain_invariants (calls : list (Sequence.call T)) s :
  Forall (fun c => (0 <= Sequence.duration_of c)%Q) calls ->
  Sequence.invariants s -> Sequence.invariants (Sequence.chain calls s).
Proof.
  intros H. revert s. induction H as [|c calls Hc _ IH]; intros s Hs; [exact Hs|].
  rewrite chain_cons. apply IH. destruct c as [K v d|v]; simpl in *.
  - now apply then_invariants.
  - now apply set_invariants.
Qed.

(** *** Continuity *)

(** Appending with [then] keeps the cached end time and makes the new
    adjacent pair continuous. *)
Lemma then_keeps_continuity (n : nat) K v d s :
  (Sequence.getEndTime s == Sequence.derived_end (Sequence._phrases s))%Q ->
  (forall i, (n <= S i)%nat -> Sequence.continuous_at (Sequence._phrases s) i) ->
  (Sequence.getEndTime (Sequence.then_ K v d s)
   == Sequence.derived_end (Sequence._phrases (Sequence.then_ K v d s)))%Q
  /\ forall i, (n <= S i)%nat ->
       Sequence.continuous_at (Sequence._phrases (Sequence.then_ K v d s)) i.
Proof.
  intros He Hcont. rewrite then_phrases, then_end_time.
  set (l := Sequence._phrases s) in *. split.
  - unfold Sequence.derived_end. rewrite last_snoc. reflexivity.
  - intros i Hn p q Hp Hq.
    destruct (decide (S i < length l)%nat) as [Hlt|Hge].
    + rewrite lookup_app_l in Hp by lia. rewrite lookup_app_l in Hq by lia.
      exact (Hcont i Hn p q Hp Hq).
    + assert (Hi : S i = length l).
      { apply lookup_lt_Some in Hq. rewrite length_app in Hq. simpl in Hq. lia. }
      rewrite lookup_app_l in Hp by lia.
      rewrite lookup_app_r, Hi, Nat.sub_diag in Hq by lia.
      injection Hq as <-. simpl.
      assert (Hlast : list.last l = Some p).
      { rewrite last_lookup. replace (pred (length l)) with i by lia. exact Hp. }
      unfold Sequence.derived_end in He. unfold Sequence.getEndValue.
      fold l. rewrite Hlast in *. split; [lra|reflexivity].
Qed.

Lemma apply_keeps_continuity (n : nat) c s :
  (Sequence.getEndTime s == Sequence.derived_end (Sequence._phrases s))%Q ->
  (forall i, (n <= S i)%nat -> Sequence.continuous_at (Sequence._phrases s) i) ->
  (Sequence.getEndTime (Sequence.apply c s)
   == Sequence.derived_end (Sequence._phrases (Sequence.apply c s)))%Q
  /\ forall i, (n <= S i)%nat ->
       Sequence.continuous_at (Sequence._phrases (Sequence.apply c s)) i.
Proof.
  intros He Hcont. destruct c as [K v d|v]; simpl.
  - now apply then_keeps_continuity.
  - destruct (phrases_empty_or_not s) as [E|E].
    + rewrite (set_empty v s E). simpl. rewrite E in He, Hcont.
      split; [exact He|exact Hcont].
    + rewrite (set_nonempty v s E). now apply then_keeps_continuity.
Qed.

Lemma chain_keeps_continuity (n : nat) (calls : list (Sequence.call T)) s :
  (Sequence.getEndTime s == Sequence.derived_end (Sequence._phrases s))%Q ->
  (forall i, (n <= S i)%nat -> Sequence.continuous_at (Sequence._phrases s) i) ->
  (exists appended,
     Sequence._phrases (Sequence.chain calls s) = Sequence._phrases s ++ appended)
  /\ forall i, (n <= S i)%nat ->
       Sequence.continuous_at (Sequence._phrases (Sequence.chain calls s)) i.
Proof.
  revert s. induction calls as [|c calls IH]; intros s He Hcont.
  - split; [exists []; simpl; now rewrite app_nil_r|exact Hcont].
  - rewrite chain_cons.
    destruct (apply_keeps_continuity n c s He Hcont) as [He' Hcont'].
    destruct (IH _ He' Hcont') as [[app2 Happ2] Hres].
    destruct (apply_phrases c s) as [app1 Happ1].
    split; [|exact Hres].
    exists (app1 ++ app2). rewrite Happ2, Happ1, app_assoc. reflexivity.
Qed.

(** C3. [then] starts the phrase it appends at the end time and end value
    the Sequence has at that moment.  In a Sequence built from a value by
    any chain of [then] and [set] calls, every adjacent pair of phrases
    agrees on the boundary time and on the boundary value.  In a chain on
    any Sequence whose cached end time is its last phrase's, the phrases
    there are stay in place and every adjacent pair whose second phrase was
    appended by the chain agrees likewise. *)
Theorem then_continuity :
  (forall K v d s,
     exists p,
       Sequence._phrases (Sequence.then_ K v d s) = Sequence._phrases s ++ [p]
       /\ Source.getStartTime p = Sequence.getEndTime s
       /\ Source.getStartValue p = Sequence.getEndValue s
       /\ Source.getEndValue p = v)
  /\ (forall v0 (calls : list (Sequence.call T)) i,
        Sequence.continuous_at
          (Sequence._phrases (Sequence.chain calls (Sequence.of_value v0))) i)
  /\ (forall s0 (calls : list (Sequence.call T)),
        (Sequence.getEndTime s0
         == Sequence.derived_end (Sequence._phrases s0))%Q ->
        (exists appended,
           Sequence._phrases (Sequence.chain calls s0)
           = Sequence._phrases s0 ++ appended)
        /\ forall i, (length (Sequence._phrases s0) <= S i)%nat ->
             Sequence.continuous_at (Sequence._phrases (Sequence.chain calls s0)) i).
Proof.
  split; [|split].
  - intros K v d s. eexists. rewrite then_phrases. repeat split; reflexivity.
  - intros v0 calls i.
    apply (chain_keeps_continuity 0 calls (Sequence.of_value v0)); [reflexivity| |lia].
    intros j _ p q H. simpl in H. rewrite lookup_nil in H. discriminate.
  - intros s0 calls He. apply chain_keeps_continuity; [exact He|].
    intros i Hi p q _ Hq. apply lookup_lt_Some in Hq. lia.
Qed.

End Building.

(** ** Construction from a phrase vector *)

Section Construction.

Context {T : Type}.

(** C7 (as amended). The constructor from a phrase vector makes no check:
    on the empty vector it reads [front()] and [back()] of an empty vector,
    which has no defined behaviour, and reports no error.  On every
    non-empty vector it returns a Sequence that holds the vector, whose
    start time is the first phrase's start time, whose end time is the last
    phrase's end time and whose initial value is the first phrase's start
    value. *)
Theorem of_phrases_spec :
  Sequence.of_phrases (@nil (Source.t T)) = Undefined
  /\ forall phrases : list (Source.t T),
       phrases <> [] ->
       exists s front back,
         list.head phrases = Some front
         /\ list.last phrases = Some back
         /\ Sequence.of_phrases phrases = Returns s
         /\ Sequence._phrases s = phrases
         /\ Sequence.getStartTime s = Source.getStartTime front
         /\ Sequence.getEndTime s = Source.getEndTime back
         /\ Sequence._initial_value s = Source.getStartValue front.
Proof.
  split; [reflexivity|]. intros phrases Hne. unfold Sequence.of_phrases.
  destruct (list.head phrases) as [front|] eqn:Hf.
  - destruct (list.last phrases) as [back|] eqn:Hb.
    + eexists _, front, back. repeat split; reflexivity.
    + apply last_None in Hb. contradiction.
  - apply head_None in Hf. contradiction.
Qed.

End Construction.

(** ** [set], and Sequences as shared objects *)

Section Shared.

Context {T : Type}.

Implicit Types (s : Sequence.t T) (h : gmap nat (Sequence.t T)).
Implicit Types (r : Store.ref) (v : T).

Lemma store_update_Some r (f : Sequence.t T -> Sequence.t T) h s :
  h !! r = Some s -> Store.update r f h = Some (tt, <[r := f s]> h).
Proof. unfold Store.update. now intros ->. Qed.

Lemma store_read_Some r h s :
  h !! r = Some s -> Store.read r h = Some (s, h).
Proof. unfold Store.read. now intros ->. Qed.

Lemma store_apply_Some c r h s :
  h !! r = Some s ->
  Store.apply c r h = Some (r, <[r := Sequence.apply c s]> h).
Proof.
  intros H. destruct c as [K v d|v]; simpl;
    unfold Store.then_, Store.set, Store.bind;
    rewrite (store_update_Some _ _ _ _ H); reflexivity.
Qed.

(** A chain on a reference changes the object it points to, and no other. *)
Lemma store_chain_Some (calls : list (Sequence.call T)) r h s :
  h !! r = Some s ->
  Store.chain calls r h = Some (r, <[r := Sequence.chain calls s]> h).
Proof.
  revert h s. induction calls as [|c calls IH]; intros h s H; simpl.
  - unfold Store.ret. now rewrite insert_id.
  - unfold Store.bind. rewrite (store_apply_Some _ _ _ _ H).
    rewrite (IH _ (Sequence.apply c s)) by apply lookup_insert_eq.
    now rewrite insert_insert_eq.
Qed.

(** C5. [set(value)] returns the Sequence it is called on.  On a Sequence
    with no phrases it overwrites the initial value and nothing else: no
    phrase is created, the end time stays, and the start value and the end
    value are [value].  On a Sequence with phrases it appends a Hold phrase
    of zero duration from the current end time and end value to [value]:
    one phrase more, end value [value], end time unchanged. *)
Theorem set_by_cases v s :
  (Sequence._phrases s = [] ->
   Sequence.set v s
   = Sequence.mk (Sequence._start_time s) (Sequence._end_time s) [] v
   /\ Sequence.getPhraseCount (Sequence.set v s) = 0%nat
   /\ Sequence.getStartValue (Sequence.set v s) = v
   /\ Sequence.getEndValue (Sequence.set v s) = v
   /\ Sequence.getEndTime (Sequence.set v s) = Sequence.getEndTime s)
  /\ (Sequence._phrases s <> [] ->
      Sequence._phrases (Sequence.set v s)
      = Sequence._phrases s
        ++ [Phrase.make Phrase.Hold (Sequence.getEndTime s)
                        (Sequence.getEndTime s + 0)%Q (Sequence.getEndValue s) v]
      /\ Sequence.getPhraseCount (Sequence.set v s)
         = S (Sequence.getPhraseCount s)
      /\ Sequence.getStartValue (Sequence.set v s) = Sequence.getStartValue s
      /\ Sequence.getEndValue (Sequence.set v s) = v
      /\ (Sequence.getEndTime (Sequence.set v s) == Sequence.getEndTime s)%Q)
  /\ (forall h r,
        h !! r = Some s ->
        Store.set v r h = Some (r, <[r := Sequence.set v s]> h)).
Proof.
  split; [|split].
  - intros E. rewrite (set_empty v s E). repeat split.
  - intros E. rewrite (set_nonempty v s E).
    unfold Sequence.getPhraseCount. rewrite then_end_value, then_phrases, length_app.
    rewrite then_end_time. simpl. repeat split; try reflexivity; try lia.
    lra.
  - intros h r H. apply (store_apply_Some (Sequence.CallSet v) r h s H).
Qed.

(** C9. [s1.copy()] returns a new object with the fields of [s1].  After
    [s2 = s1.copy()], any chain of [then] and [set] calls on [s2] runs on
    the copy and leaves the object [s1] as it was: its phrase count, its
    end value and its end time are the ones it had before. *)
Theorem copy_independence h (r1 : Store.ref) s1
  (calls : list (Sequence.call T)) :
  h !! r1 = Some s1 ->
  exists (r2 : Store.ref) h1,
    Store.copy r1 h = Some (r2, h1)
    /\ r2 <> r1
    /\ h1 !! r1 = Some s1
    /\ h1 !! r2 = Some s1
    /\ exists h2,
         Store.chain calls r2 h1 = Some (r2, h2)
         /\ h2 !! r2 = Some (Sequence.chain calls s1)
         /\ h2 !! r1 = Some s1
         /\ Store.getPhraseCount r1 h2 = Some (Sequence.getPhraseCount s1, h2)
         /\ Store.getEndValue r1 h2 = Some (Sequence.getEndValue s1, h2)
         /\ Store.getEndTime r1 h2 = Some (Sequence.getEndTime s1, h2).
Proof.
  intros H1. exists (fresh (dom h)), (<[fresh (dom h) := s1]> h).
  assert (Hfresh : fresh (dom h) <> r1).
  { intros Heq. pose proof (is_fresh (dom h)) as Hnot. rewrite Heq in Hnot.
    apply Hnot, elem_of_dom. eauto. }
  split.
  { unfold Store.copy, Store.bind, Store.make_shared.
    rewrite (store_read_Some _ _ _ H1). destruct s1; reflexivity. }
  split; [exact Hfresh|]. split.
  { rewrite lookup_insert_ne by exact Hfresh. exact H1. }
  split; [apply lookup_insert_eq|].
  eexists. split.
  { apply store_chain_Some. apply lookup_insert_eq. }
  assert (H2 : <[fresh (dom h) := Sequence.chain calls s1]>
                 (<[fresh (dom h) := s1]> h) !! r1 = Some s1).
  { rewrite !lookup_insert_ne by exact Hfresh. exact H1. }
  split; [apply lookup_insert_eq|]. split; [exact H2|].
  unfold Store.getPhraseCount, Store.getEndValue, Store.getEndTime, Store.bind.
  rewrite (store_read_Some _ _ _ H2). repeat split.
Qed.

End Shared.

(** ** The scenarios, evaluated *)

Example ramp_hold_before_start :
  Sequence.getValue Scenario.ramp_hold (-1)%Q = 0%Q.
Proof. reflexivity. Qed.

Example ramp_hold_halfway :
  (Sequence.getValue Scenario.ramp_hold (1#2) == 5)%Q.
Proof. time_fact. Qed.

Example ramp_hold_at_one :
  Sequence.getValue Scenario.ramp_hold 1%Q = 10%Q.
Proof. reflexivity. Qed.

Example ramp_hold_in_hold :
  Sequence.getValue Scenario.ramp_hold (3#2) = 10%Q.
Proof. reflexivity. Qed.

Example ramp_hold_past_end :
  Sequence.getValue Scenario.ramp_hold 3%Q = 10%Q.
Proof. reflexivity. Qed.

Example ramp_hold_end_time :
  (Sequence.getEndTime Scenario.ramp_hold == 2)%Q.
Proof. time_fact. Qed.

Example set_on_empty_count_and_value :
  Sequence.getPhraseCount Scenario.set_on_empty = 0%nat
  /\ Sequence.getValue Scenario.set_on_empty 100%Q = 7%Q.
Proof. split; reflexivity. Qed.

Example from_phrases_then_set :
  Sequence.getPhraseCount (Sequence.set 9%Q Scenario.from_phrases) = 3%nat
  /\ Sequence.getEndValue (Sequence.set 9%Q Scenario.from_phrases) = 9%Q
  /\ (Sequence.getEndTime (Sequence.set 9%Q Scenario.from_phrases)
      == Sequence.getEndTime Scenario.from_phrases)%Q.
Proof. repeat split. Qed.

Example ramp_set_hold_at_the_set :
  Sequence.getValue_branch Scenario.ramp_set_hold 1%Q
  = Sequence.Delegate 2 (Phrase.make Phrase.Hold (0 + 1 + 0) (0 + 1 + 0 + 1) 7 7)%Q.
Proof. reflexivity. Qed.

Lemma ramp_hold_invariants : Sequence.invariants Scenario.ramp_hold.
Proof.
  apply chain_invariants; [nonneg_durations|apply of_value_invariants].
Qed.

Lemma ramp_set_hold_invariants : Sequence.invariants Scenario.ramp_set_hold.
Proof.
  apply chain_invariants; [nonneg_durations|apply of_value_invariants].
Qed.

(** ** The theorems at concrete Sequences *)

Lemma getValue_in_range_witness :
  Sequence.invariants Scenario.ramp_hold
  /\ (Sequence.getStartTime Scenario.ramp_hold <= 1#2)%Q
  /\ (1#2 < Sequence.getEndTime Scenario.ramp_hold)%Q
  /\ exists i p,
       Sequence._phrases Scenario.ramp_hold !! i = Some p
       /\ Sequence.contains p (1#2)
       /\ Sequence.getValue Scenario.ramp_hold (1#2) = Source.getValue p (1#2).
Proof.
  assert (H1 := ramp_hold_invariants).
  assert (H2 : (Sequence.getStartTime Scenario.ramp_hold <= 1#2)%Q) by time_fact.
  assert (H3 : (1#2 < Sequence.getEndTime Scenario.ramp_hold)%Q) by time_fact.
  split; [exact H1|]. split; [exact H2|]. split; [exact H3|].
  destruct (getValue_in_range Scenario.ramp_hold (1#2) H1 H2 H3)
    as (i & p & Hl & _ & _ & Hc & _ & Hv).
  exists i, p. auto.
Defined.

(** The claim C2 as stated fails after a [then] with a negative duration:
    in [Sequence<float> s(0); s.then<Hold>(5, -1);] the end time -1 lies
    before the start time 0, and a query at -1/2, which is at or after the
    end time, returns the initial value 0 and not the end value 5. *)
Lemma end_clamp_counterexample :
  (Sequence.getEndTime Scenario.backwards <= -1#2)%Q
  /\ Sequence.getValue Scenario.backwards (-1#2) = 0%Q
  /\ Sequence.getEndValue Scenario.backwards = 5%Q
  /\ Sequence.getValue Scenario.backwards (-1#2)
     <> Sequence.getEndValue Scenario.backwards.
Proof.
  split; [time_fact|]. split; [reflexivity|]. split; [reflexivity|].
  vm_compute. discriminate.
Qed.

Lemma getValue_clamps_witness :
  (-1 < Sequence.getStartTime Scenario.ramp_hold)%Q
  /\ Sequence.getValue Scenario.ramp_hold (-1)
     = Sequence._initial_value Scenario.ramp_hold
  /\ (Sequence.getStartTime Scenario.ramp_hold <= 3)%Q
  /\ (Sequence.getEndTime Scenario.ramp_hold <= 3)%Q
  /\ Sequence.getValue Scenario.ramp_hold 3
     = Sequence.getEndValue Scenario.ramp_hold.
Proof.
  assert (H1 : (-1 < Sequence.getStartTime Scenario.ramp_hold)%Q) by time_fact.
  assert (H2 : (Sequence.getStartTime Scenario.ramp_hold <= 3)%Q) by time_fact.
  assert (H3 : (Sequence.getEndTime Scenario.ramp_hold <= 3)%Q) by time_fact.
  split; [exact H1|].
  split; [exact (proj1 (getValue_clamps Scenario.ramp_hold (-1)) H1)|].
  split; [exact H2|]. split; [exact H3|].
  exact (proj1 (proj2 (getValue_clamps Scenario.ramp_hold 3)) H2 H3).
Defined.

Lemma then_continuity_witness :
  (Sequence.getEndTime Scenario.from_phrases
   == Sequence.derived_end (Sequence._phrases Scenario.from_phrases))%Q
  /\ (exists appended,
        Sequence._phrases
          (Sequence.chain [Sequence.CallSet 9%Q] Scenario.from_phrases)
        = Sequence._phrases Scenario.from_phrases ++ appended)
  /\ Sequence.continuous_at
       (Sequence._phrases
          (Sequence.chain [Sequence.CallSet 9%Q] Scenario.from_phrases)) 1.
Proof.
  assert (H : (Sequence.getEndTime Scenario.from_phrases
               == Sequence.derived_end (Sequence._phrases Scenario.from_phrases))%Q)
    by time_fact.
  split; [exact H|].
  destruct (proj2 (proj2 (@then_continuity Q)) Scenario.from_phrases
                  [Sequence.CallSet 9%Q] H) as [Happ Hcont].
  split; [exact Happ|]. apply Hcont. simpl. lia.
Defined.

Lemma set_by_cases_witness :
  Sequence._phrases (Sequence.of_value 5%Q) = []
  /\ Sequence.getPhraseCount (Sequence.set 7%Q (Sequence.of_value 5%Q)) = 0%nat
  /\ Sequence.getEndValue (Sequence.set 7%Q (Sequence.of_value 5%Q)) = 7%Q
  /\ Sequence._phrases Scenario.from_phrases <> []
  /\ Sequence.getPhraseCount (Sequence.set 9%Q Scenario.from_phrases)
     = S (Sequence.getPhraseCount Scenario.from_phrases)
  /\ Sequence.getEndValue (Sequence.set 9%Q Scenario.from_phrases) = 9%Q
  /\ (Sequence.getEndTime (Sequence.set 9%Q Scenario.from_phrases)
      == Sequence.getEndTime Scenario.from_phrases)%Q.
Proof.
  assert (H1 : Sequence._phrases (Sequence.of_value 5%Q) = []) by reflexivity.
  assert (H2 : Sequence._phrases Scenario.from_phrases <> []) by discriminate.
  destruct (proj1 (set_by_cases 7%Q (Sequence.of_value 5%Q)) H1)
    as (_ & Hcount & _ & Hend & _).
  destruct (proj1 (proj2 (set_by_cases 9%Q Scenario.from_phrases)) H2)
    as (_ & Hcount' & _ & Hend' & Htime).
  repeat split; assumption.
Defined.


(** The claim C7 as stated fails on the empty vector: the constructor
    reports no error there. *)
Lemma of_phrases_empty_counterexample :
  Sequence.of_phrases (@nil (Source.t Q)) <> Throws.
Proof. discriminate. Qed.

Lemma of_phrases_spec_witness :
  [Scenario.p1; Scenario.p2] <> []
  /\ exists s,
       Sequence.of_phrases [Scenario.p1; Scenario.p2] = Returns s
       /\ Sequence.getStartTime s = Source.getStartTime Scenario.p1
       /\ Sequence.getEndTime s = Source.getEndTime Scenario.p2
       /\ Sequence._initial_value s = Source.getStartValue Scenario.p1.
Proof.
  assert (H : [Scenario.p1; Scenario.p2] <> []) by discriminate.
  split; [exact H|].
  destruct (proj2 (@of_phrases_spec Q) [Scenario.p1; Scenario.p2] H)
    as (s & front & back & Hf & Hb & Hs & _ & H1 & H2 & H3).
  injection Hf as <-. injection Hb as <-. exists s. auto.
Defined.

Lemma fallback_unreachable_witness :
  (Sequence.getStartTime Scenario.ramp_hold
   == Sequence.derived_start (Sequence._phrases Scenario.ramp_hold))%Q
  /\ (Sequence.getEndTime Scenario.ramp_hold
      == Sequence.derived_end (Sequence._phrases Scenario.ramp_hold))%Q
  /\ (Sequence.getStartTime Scenario.ramp_hold <= 3#2)%Q
  /\ (3#2 < Sequence.getEndTime Scenario.ramp_hold)%Q
  /\ Sequence.getValue_branch Scenario.ramp_hold (3#2) <> Sequence.Fallback.
Proof.
  assert (H1 : (Sequence.getStartTime Scenario.ramp_hold
                == Sequence.derived_start (Sequence._phrases Scenario.ramp_hold))%Q)
    by time_fact.
  assert (H2 : (Sequence.getEndTime Scenario.ramp_hold
                == Sequence.derived_end (Sequence._phrases Scenario.ramp_hold))%Q)
    by time_fact.
  assert (H3 : (Sequence.getStartTime Scenario.ramp_hold <= 3#2)%Q) by time_fact.
  assert (H4 : (3#2 < Sequence.getEndTime Scenario.ramp_hold)%Q) by time_fact.
  repeat (split; [assumption|]).
  exact (proj1 (fallback_unreachable Scenario.ramp_hold (3#2) H1 H2 H3 H4)).
Defined.

Lemma copy_independence_witness :
  Scenario.one_object !! 3%nat = Some Scenario.ramp_hold
  /\ exists (r2 : Store.ref) h1 h2,
       Store.copy 3%nat Scenario.one_object = Some (r2, h1)
       /\ Store.chain [Sequence.CallThen Phrase.Hold 3%Q 1%Q] r2 h1
          = Some (r2, h2)
       /\ h2 !! 3%nat = Some Scenario.ramp_hold
       /\ Store.getPhraseCount 3%nat h2
          = Some (Sequence.getPhraseCount Scenario.ramp_hold, h2)
       /\ Store.getEndValue 3%nat h2
          = Some (Sequence.getEndValue Scenario.ramp_hold, h2).
Proof.
  assert (H1 : Scenario.one_object !! 3%nat = Some Scenario.ramp_hold)
    by reflexivity.
  split; [exact H1|].
  destruct (copy_independence Scenario.one_object 3%nat Scenario.ramp_hold
              [Sequence.CallThen Phrase.Hold 3%Q 1%Q] H1)
    as (r2 & h1 & Hcopy & _ & _ & _ & h2 & Hchain & _ & Hsame & Hcount & Hvalue & _).
  exists r2, h1, h2. auto.
Defined.

Lemma delegate_in_domain_witness :
  Sequence.invariants Scenario.ramp_set_hold
  /\ Sequence.contains Scenario.p1 (1#2)
  /\ match Sequence.getValue_branch Scenario.ramp_set_hold 1%Q with
     | Sequence.EndClamp => True
     | Sequence.Delegate j _ => (1 < j)%nat
     | _ => False
     end.
Proof.
  assert (H := ramp_set_hold_invariants).
  destruct (delegate_in_domain Scenario.ramp_set_hold H) as [Hdom Hzero].
  split; [exact H|]. split.
  - exact (proj1 (proj2 (Hdom (1#2)%Q 0%nat Scenario.p1 eq_refl))).
  - pose proof (Hzero 1%Q 1%nat
                  (Phrase.make Phrase.Hold (0 + 1) (0 + 1 + 0) 10 7)%Q eq_refl
                  ltac:(time_fact) ltac:(time_fact)) as Hz.
    destruct (Sequence.getValue_branch Scenario.ramp_set_hold 1%Q);
      try exact Hz. exact (proj1 Hz).
Defined.

(** * Further properties of the code *)

(** ** What a query returns, call by call *)

Section Queries.

Context {T : Type}.

Implicit Types (s : Sequence.t T) (p q : Source.t T) (l : list (Source.t T)).
Implicit Types (K : Phrase.kind T) (v : T) (d t : Q) (c : Sequence.call T).

(** Where the loop stops is not changed by phrases behind that position. *)
Lemma scan_app l l' t i p :
  Sequence.scan l t = Some (i, p) -> Sequence.scan (l ++ l') t = Some (i, p).
Proof.
  revert i p. induction l as [|a l IH]; intros i p; simpl; [discriminate|].
  destruct (Time.ltb t (Source.getEndTime a)); [auto|].
  destruct (Sequence.scan l t) as [[i' p']|]; [|discriminate].
  intros [= <- <-]. now rewrite (IH _ _ eq_refl).
Qed.

(** The loop passes every phrase that has ended by [t]. *)
Lemma scan_skip l p t :
  (forall j q, l !! j = Some q -> (Source.getEndTime q <= t)%Q) ->
  Sequence.scan (l ++ [p]) t
  = if Time.ltb t (Source.getEndTime p) then Some (length l, p) else None.
Proof.
  induction l as [|a l IH]; intros H; simpl.
  - destruct (Time.ltb t (Source.getEndTime p)); reflexivity.
  - assert (Ha : Time.ltb t (Source.getEndTime a) = false).
    { apply ltb_ge. apply (H 0%nat a). reflexivity. }
    rewrite Ha, IH by (intros j q Hq; apply (H (S j) q Hq)).
    destruct (Time.ltb t (Source.getEndTime p)); reflexivity.
Qed.

(** Under the invariants no phrase ends after the Sequence does. *)
Lemma ends_before_end s j q :
  Sequence.invariants s -> Sequence._phrases s !! j = Some q ->
  (Source.getEndTime q <= Sequence.getEndTime s)%Q.
Proof.
  intros [Hc Hch _ He] Hq. unfold Sequence.derived_end in He.
  destruct (list.last (Sequence._phrases s)) as [b|] eqn:Hb.
  - rewrite last_lookup in Hb.
    destruct (decide (j = pred (length (Sequence._phrases s)))) as [->|Hne].
    + rewrite Hq in Hb. injection Hb as ->. lra.
    + assert (Hj : (j < pred (length (Sequence._phrases s)))%nat).
      { apply lookup_lt_Some in Hq. lia. }
      pose proof (ordered _ _ _ _ _ Hc Hch Hj Hq Hb).
      assert (Source.getStartTime b <= Source.getEndTime b)%Q.
      { apply Hch. apply list_elem_of_In. eapply list_elem_of_lookup_2; eauto. }
      lra.
  - apply last_None in Hb. rewrite Hb in Hq. discriminate.
Qed.

Lemma invariants_bounds_cached s :
  Sequence.invariants s -> Sequence.bounds_cached s.
Proof. intros [_ _ Hs He]. split; assumption. Qed.

(** At or after the end time, and not before the start time, the answer is
    the end value. *)
Lemma getValue_at_end s t :
  (Sequence.getStartTime s <= t)%Q -> (Sequence.getEndTime s <= t)%Q ->
  Sequence.getValue s t = Sequence.getEndValue s.
Proof.
  intros H1 H2. unfold Sequence.getValue.
  apply ltb_ge in H1. apply geb_ge in H2. now rewrite H1, H2.
Qed.

(** Appending with a non-negative duration leaves every answer before the
    old end time as it was. *)
Lemma then_keeps_earlier_values K v d s t :
  Sequence.bounds_cached s -> (0 <= d)%Q -> (t < Sequence.getEndTime s)%Q ->
  Sequence.getValue (Sequence.then_ K v d s) t = Sequence.getValue s t.
Proof.
  intros [Hs He] Hd Ht. unfold Sequence.getValue.
  rewrite then_start_time, then_end_time, then_phrases.
  change (Sequence._initial_value (Sequence.then_ K v d s))
    with (Sequence._initial_value s).
  destruct (Time.ltb t (Sequence.getStartTime s)) eqn:E1; [reflexivity|].
  apply ltb_ge in E1.
  assert (E2 : Time.geb t (Sequence.getEndTime s) = false) by (apply geb_lt; lra).
  assert (E3 : Time.geb t (Sequence.getEndTime s + d) = false)
    by (apply geb_lt; lra).
  rewrite E2, E3.
  destruct (in_range_delegates s t Hs He E1 Ht) as (i & p & Hscan & _).
  now rewrite (scan_app _ _ _ _ _ Hscan), Hscan.
Qed.

(** X1. A Sequence with no phrases answers every query with its initial
    value, whatever its time bounds; after a chain of [set] calls alone on
    a Sequence constructed from a value there is still no phrase, and every
    query returns the value of the last [set]. *)
Theorem no_phrases_constant :
  (forall s t, Sequence._phrases s = [] ->
               Sequence.getValue s t = Sequence._initial_value s)
  /\ (forall v0 (calls : list (Sequence.call T)) t,
        Forall (fun c => Sequence.is_set c = true) calls ->
        Sequence._phrases (Sequence.chain calls (Sequence.of_value v0)) = []
        /\ Sequence.getValue (Sequence.chain calls (Sequence.of_value v0)) t
           = Sequence.last_value v0 calls).
Proof.
  assert (Hconst : forall s t, Sequence._phrases s = [] ->
                     Sequence.getValue s t = Sequence._initial_value s).
  { intros s t E. unfold Sequence.getValue, Sequence.getEndValue. rewrite E. simpl.
    destruct (Time.ltb t (Sequence.getStartTime s)); [reflexivity|].
    destruct (Time.geb t (Sequence.getEndTime s)); reflexivity. }
  split; [exact Hconst|]. intros v0 calls t Hsets.
  assert (Hgen : forall s, Sequence._phrases s = [] ->
            Sequence._phrases (Sequence.chain calls s) = []
            /\ Sequence._initial_value (Sequence.chain calls s)
               = Sequence.last_value (Sequence._initial_value s) calls).
  { induction Hsets as [|c calls Hc _ IH]; intros s E; [split; [exact E|reflexivity]|].
    destruct c as [K v d|v]; [discriminate|].
    rewrite chain_cons. simpl Sequence.apply. rewrite (set_empty v s E).
    apply (IH (Sequence.mk _ _ [] v)). reflexivity. }
  destruct (Hgen (Sequence.of_value v0) eq_refl) as [E Hv].
  split; [exact E|]. rewrite (Hconst _ t E). exact Hv.
Qed.

End Queries.

(** ** What chains of calls keep *)

Section Chains.

Context {T : Type}.

Implicit Types (s : Sequence.t T) (p q : Source.t T) (l : list (Source.t T)).
Implicit Types (K : Phrase.kind T) (v : T) (d t : Q) (c : Sequence.call T).
Implicit Types (calls : list (Sequence.call T)).


(** [then] keeps the cached bounds, whatever the sign of the duration. *)
Lemma then_bounds_cached K v d s :
  Sequence.bounds_cached s -> Sequence.bounds_cached (Sequence.then_ K v d s).
Proof.
  intros [Hs He]. split; rewrite then_phrases.
  - rewrite then_start_time. unfold Sequence.derived_start in *. rewrite head_snoc.
    destruct (list.head (Sequence._phrases s)) as [f|] eqn:Hf; [exact Hs|].
    simpl. apply head_None in Hf. unfold Sequence.derived_end in He.
    rewrite Hf in He. simpl in He. lra.
  - rewrite then_end_time. unfold Sequence.derived_end. rewrite last_snoc.
    reflexivity.
Qed.

Lemma apply_bounds_cached c s :
  Sequence.bounds_cached s -> Sequence.bounds_cached (Sequence.apply c s).
Proof.
  intros H. destruct c as [K v d|v]; simpl.
  - now apply then_bounds_cached.
  - destruct (phrases_empty_or_not s) as [E|E].
    + rewrite (set_empty v s E). destruct H as [Hs He]. rewrite E in Hs, He.
      split; assumption.
    + rewrite (set_nonempty v s E). now apply then_bounds_cached.
Qed.

(** Every chain keeps the phrases there are, at their positions. *)
Lemma chain_phrases_prefix calls s :
  exists appended,
    Sequence._phrases (Sequence.chain calls s) = Sequence._phrases s ++ appended.
Proof.
  revert s. induction calls as [|c calls IH]; intros s.
  - exists []. simpl. now rewrite app_nil_r.
  - rewrite chain_cons. destruct (IH (Sequence.apply c s)) as [app2 H2].
    destruct (apply_phrases c s) as [app1 H1].
    exists (app1 ++ app2). now rewrite H2, H1, app_assoc.
Qed.

(** On a Sequence with phrases every call appends exactly one phrase. *)
Lemma apply_appends_one c s :
  Sequence._phrases s <> [] ->
  exists p, Sequence._phrases (Sequence.apply c s) = Sequence._phrases s ++ [p].
Proof.
  intros E. destruct c as [K v d|v]; simpl.
  - eexists. apply then_phrases.
  - rewrite (set_nonempty v s E). eexists. apply then_phrases.
Qed.

Lemma apply_end_value c s :
  Sequence.getEndValue (Sequence.apply c s) = Sequence.value_of c.
Proof.
  destruct c as [K v d|v]; simpl; [apply then_end_value|].
  destruct (phrases_empty_or_not s) as [E|E].
  - rewrite (set_empty v s E). reflexivity.
  - rewrite (set_nonempty v s E). apply then_end_value.
Qed.

Lemma apply_keeps_earlier_values c s t :
  Sequence.bounds_cached s -> Sequence._phrases s <> [] ->
  (0 <= Sequence.duration_of c)%Q -> (t < Sequence.getEndTime s)%Q ->
  Sequence.getValue (Sequence.apply c s) t = Sequence.getValue s t.
Proof.
  intros Hb E Hd Ht. destruct c as [K v d|v]; simpl in *.
  - now apply then_keeps_earlier_values.
  - rewrite (set_nonempty v s E). now apply then_keeps_earlier_values.
Qed.

(** X4. Appending never rewrites the past: after any chain of calls with
    non-negative durations on a Sequence that has phrases and whose cached
    bounds are the derived ones, every query before the old end time
    returns what it returned before the chain. *)
Theorem chain_keeps_history calls s t :
  Sequence.bounds_cached s -> Sequence._phrases s <> [] ->
  Forall (fun c => (0 <= Sequence.duration_of c)%Q) calls ->
  (t < Sequence.getEndTime s)%Q ->
  Sequence.getValue (Sequence.chain calls s) t = Sequence.getValue s t.
Proof.
  intros Hb E Hcalls. revert s Hb E.
  induction Hcalls as [|c calls Hc _ IH]; intros s Hb E Ht; [reflexivity|].
  rewrite chain_cons, IH.
  - now apply apply_keeps_earlier_values.
  - now apply apply_bounds_cached.
  - destruct (apply_appends_one c s E) as [p ->].
    intros Habs. apply app_eq_nil in Habs. destruct Habs; discriminate.
  - pose proof (apply_end_time c s). lra.
Qed.

(** X5. What [set] does to the answers.  On a Sequence with phrases whose
    cached bounds are the derived ones, every query before the end time
    returns what it did, and every query at or after the end time (and not
    before the start time) returns [value]; the Hold that was appended is
    never asked.  On a Sequence without phrases every query returns
    [value]. *)
Theorem set_piecewise v s t :
  (Sequence.bounds_cached s -> Sequence._phrases s <> [] ->
   (t < Sequence.getEndTime s)%Q ->
   Sequence.getValue (Sequence.set v s) t = Sequence.getValue s t)
  /\ (Sequence._phrases s <> [] ->
      (Sequence.getStartTime s <= t)%Q -> (Sequence.getEndTime s <= t)%Q ->
      Sequence.getValue (Sequence.set v s) t = v)
  /\ (Sequence._phrases s = [] -> Sequence.getValue (Sequence.set v s) t = v).
Proof.
  split; [|split].
  - intros Hb E Ht. rewrite (set_nonempty v s E).
    apply then_keeps_earlier_values; [exact Hb|lra|exact Ht].
  - intros E H1 H2. rewrite (set_nonempty v s E), getValue_at_end.
    + apply then_end_value.
    + now rewrite then_start_time.
    + rewrite then_end_time. lra.
  - intros E. rewrite (set_empty v s E).
    unfold Sequence.getValue, Sequence.getEndValue. simpl.
    destruct (Time.ltb t _); [reflexivity|]. destruct (Time.geb t _); reflexivity.
Qed.

(** X6. After a chain that makes at least one call, [getEndValue()] is the
    value passed to the last call, and so is the answer to every query at
    or after the end time that is not before the start time. *)
Theorem chain_end_value calls c s :
  list.last calls = Some c ->
  Sequence.getEndValue (Sequence.chain calls s) = Sequence.value_of c
  /\ forall t,
       (Sequence.getStartTime (Sequence.chain calls s) <= t)%Q ->
       (Sequence.getEndTime (Sequence.chain calls s) <= t)%Q ->
       Sequence.getValue (Sequence.chain calls s) t = Sequence.value_of c.
Proof.
  intros Hlast. apply last_Some in Hlast. destruct Hlast as [calls' ->].
  rewrite chain_snoc.
  assert (Hev := apply_end_value c (Sequence.chain calls' s)).
  split; [exact Hev|]. intros t H1 H2. now rewrite getValue_at_end.
Qed.


(** X9. No call removes or moves a phrase: after any chain every phrase is
    still at its position.  [then] always adds one phrase, and on a Sequence
    that has phrases a chain adds exactly one phrase per call. *)
Theorem calls_append_one :
  (forall calls s (i : nat) p,
     Sequence._phrases s !! i = Some p ->
     Sequence._phrases (Sequence.chain calls s) !! i = Some p)
  /\ (forall K v d s,
        Sequence.getPhraseCount (Sequence.then_ K v d s)
        = S (Sequence.getPhraseCount s))
  /\ (forall calls s,
        Sequence._phrases s <> [] ->
        Sequence.getPhraseCount (Sequence.chain calls s)
        = (Sequence.getPhraseCount s + length calls)%nat).
Proof.
  split; [|split].
  - intros calls s i p Hp. destruct (chain_phrases_prefix calls s) as [app ->].
    now apply lookup_app_l_Some.
  - intros K v d s. unfold Sequence.getPhraseCount.
    rewrite then_phrases, length_app. simpl. lia.
  - induction calls as [|c calls IH]; intros s E.
    + simpl. lia.
    + rewrite chain_cons. destruct (apply_appends_one c s E) as [p Hp].
      rewrite IH.
      * unfold Sequence.getPhraseCount. rewrite Hp, length_app. simpl. lia.
      * rewrite Hp. intros Habs. apply app_eq_nil in Habs.
        destruct Habs; discriminate.
Qed.

(** X10. A chain of calls through a reference to a live Sequence runs to
    its end, returns that same reference, leaves at it the Sequence the
    calls produce, and changes no other object of the store. *)
Theorem store_chain_frame calls (r : Store.ref)
  (h : gmap nat (Sequence.t T)) s :
  h !! r = Some s ->
  exists h',
    Store.chain calls r h = Some (r, h')
    /\ h' !! r = Some (Sequence.chain calls s)
    /\ forall r' : Store.ref, r' <> r -> h' !! r' = h !! r'.
Proof.
  intros H. exists (<[r := Sequence.chain calls s]> h).
  split; [exact (store_chain_Some calls r h s H)|]. split.
  - apply lookup_insert_eq.
  - intros r' Hne. now apply lookup_insert_ne.
Qed.

End Chains.

(** ** Well-formed Sequences and copies *)

Section WellFormed.

Context {T : Type}.

Implicit Types (s : Sequence.t T) (t : Q).

(** Under the invariants the start time is not after the end time. *)
Lemma invariants_start_le_end s :
  Sequence.invariants s ->
  (Sequence.getStartTime s <= Sequence.getEndTime s)%Q.
Proof.
  intros Hinv. pose proof Hinv as [Hc Hch Hs He].
  unfold Sequence.derived_start in Hs.
  destruct (list.head (Sequence._phrases s)) as [f|] eqn:Hf.
  - rewrite head_lookup in Hf. pose proof (ends_before_end s _ _ Hinv Hf).
    assert (Source.getStartTime f <= Source.getEndTime f)%Q.
    { apply Hch. apply list_elem_of_In. eapply list_elem_of_lookup_2; eauto. }
    lra.
  - apply head_None in Hf. unfold Sequence.derived_end in He.
    rewrite Hf in He. simpl in He. lra.
Qed.

(** X11. In a Sequence that satisfies the structural invariants the start
    time is not after the end time, and every query at or after the end
    time returns [getEndValue()]; so it is in every Sequence built from a
    value by calls with non-negative durations. *)
Theorem end_clamp_when_well_formed :
  (forall s t,
     Sequence.invariants s ->
     (Sequence.getStartTime s <= Sequence.getEndTime s)%Q
     /\ ((Sequence.getEndTime s <= t)%Q ->
         Sequence.getValue s t = Sequence.getEndValue s))
  /\ (forall (v0 : T) calls t,
        Forall (fun c => (0 <= Sequence.duration_of c)%Q) calls ->
        (Sequence.getEndTime (Sequence.chain calls (Sequence.of_value v0)) <= t)%Q ->
        Sequence.getValue (Sequence.chain calls (Sequence.of_value v0)) t
        = Sequence.getEndValue (Sequence.chain calls (Sequence.of_value v0))).
Proof.
  assert (Hwf : forall s t, Sequence.invariants s ->
            (Sequence.getStartTime s <= Sequence.getEndTime s)%Q
            /\ ((Sequence.getEndTime s <= t)%Q ->
                Sequence.getValue s t = Sequence.getEndValue s)).
  { intros s t Hinv. pose proof (invariants_start_le_end s Hinv) as Hle.
    split; [exact Hle|]. intros Ht. apply getValue_at_end; lra. }
  split; [exact Hwf|]. intros v0 calls t Hcalls Ht.
  apply Hwf; [|exact Ht].
  apply chain_invariants; [exact Hcalls|apply of_value_invariants].
Qed.

(** X12. [copy()] through a reference to a live Sequence returns a
    reference that no live object had, pointing to a Sequence with the same
    fields, and changes no object that was live. *)
Theorem copy_is_fresh (h : gmap nat (Sequence.t T)) (r1 : Store.ref) s1 :
  h !! r1 = Some s1 ->
  exists (r2 : Store.ref) h1,
    Store.copy r1 h = Some (r2, h1)
    /\ h !! r2 = None
    /\ h1 !! r2 = Some s1
    /\ forall r : Store.ref, r <> r2 -> h1 !! r = h !! r.
Proof.
  intros H1. exists (fresh (dom h)), (<[fresh (dom h) := s1]> h).
  split; [|split; [|split]].
  - unfold Store.copy, Store.bind, Store.make_shared.
    rewrite (store_read_Some _ _ _ H1). destruct s1; reflexivity.
  - apply not_elem_of_dom. apply is_fresh.
  - apply lookup_insert_eq.
  - intros r Hne. apply lookup_insert_ne. congruence.
Qed.

End WellFormed.

(** ** The further properties at concrete Sequences *)

Lemma no_phrases_constant_witness :
  Sequence._phrases Scenario.set_on_empty = []
  /\ Sequence.getValue Scenario.set_on_empty 100%Q
     = Sequence._initial_value Scenario.set_on_empty
  /\ Forall (fun c => Sequence.is_set c = true)
            [Sequence.CallSet 7%Q; Sequence.CallSet 8%Q]
  /\ Sequence.getValue
       (Sequence.chain [Sequence.CallSet 7%Q; Sequence.CallSet 8%Q]
                       (Sequence.of_value 5%Q)) 100%Q
     = 8%Q.
Proof.
  assert (H1 : Sequence._phrases Scenario.set_on_empty = []) by reflexivity.
  assert (H2 : Forall (fun c => Sequence.is_set c = true)
                      [Sequence.CallSet 7%Q; Sequence.CallSet 8%Q])
    by (repeat constructor).
  split; [exact H1|].
  split; [exact (proj1 (@no_phrases_constant Q) Scenario.set_on_empty 100%Q H1)|].
  split; [exact H2|].
  exact (proj2 (proj2 (@no_phrases_constant Q) 5%Q _ 100%Q H2)).
Defined.

Lemma chain_keeps_history_witness :
  Sequence.bounds_cached Scenario.ramp_hold
  /\ Sequence._phrases Scenario.ramp_hold <> []
  /\ Forall (fun c => (0 <= Sequence.duration_of c)%Q)
            [Sequence.CallSet 7%Q; Sequence.CallThen Phrase.Hold 7%Q 1%Q]
  /\ (1#2 < Sequence.getEndTime Scenario.ramp_hold)%Q
  /\ Sequence.getValue
       (Sequence.chain [Sequence.CallSet 7%Q; Sequence.CallThen Phrase.Hold 7%Q 1%Q]
                       Scenario.ramp_hold) (1#2)
     = Sequence.getValue Scenario.ramp_hold (1#2).
Proof.
  assert (H1 : Sequence.bounds_cached Scenario.ramp_hold) by (split; time_fact).
  assert (H2 : Sequence._phrases Scenario.ramp_hold <> []) by discriminate.
  assert (H3 : Forall (fun c => (0 <= Sequence.duration_of c)%Q)
                 [Sequence.CallSet 7%Q; Sequence.CallThen Phrase.Hold 7%Q 1%Q])
    by nonneg_durations.
  assert (H4 : (1#2 < Sequence.getEndTime Scenario.ramp_hold)%Q) by time_fact.
  repeat (split; [assumption|]).
  exact (chain_keeps_history _ Scenario.ramp_hold (1#2) H1 H2 H3 H4).
Defined.

Lemma set_piecewise_witness :
  Sequence.bounds_cached Scenario.ramp_hold
  /\ Sequence._phrases Scenario.ramp_hold <> []
  /\ (3#2 < Sequence.getEndTime Scenario.ramp_hold)%Q
  /\ Sequence.getValue (Sequence.set 7%Q Scenario.ramp_hold) (3#2)
     = Sequence.getValue Scenario.ramp_hold (3#2)
  /\ (Sequence.getStartTime Scenario.ramp_hold <= 2)%Q
  /\ (Sequence.getEndTime Scenario.ramp_hold <= 2)%Q
  /\ Sequence.getValue (Sequence.set 7%Q Scenario.ramp_hold) 2%Q = 7%Q
  /\ Sequence._phrases (Sequence.of_value 5%Q) = []
  /\ Sequence.getValue (Sequence.set 7%Q (Sequence.of_value 5%Q)) (-1)%Q = 7%Q.
Proof.
  assert (H1 : Sequence.bounds_cached Scenario.ramp_hold) by (split; time_fact).
  assert (H2 : Sequence._phrases Scenario.ramp_hold <> []) by discriminate.
  assert (H3 : (3#2 < Sequence.getEndTime Scenario.ramp_hold)%Q) by time_fact.
  assert (H4 : (Sequence.getStartTime Scenario.ramp_hold <= 2)%Q) by time_fact.
  assert (H5 : (Sequence.getEndTime Scenario.ramp_hold <= 2)%Q) by time_fact.
  assert (H6 : Sequence._phrases (Sequence.of_value 5%Q) = []) by reflexivity.
  split; [exact H1|]. split; [exact H2|]. split; [exact H3|].
  split; [exact (proj1 (set_piecewise 7%Q Scenario.ramp_hold (3#2)) H1 H2 H3)|].
  split; [exact H4|]. split; [exact H5|].
  split; [exact (proj1 (proj2 (set_piecewise 7%Q Scenario.ramp_hold 2%Q)) H2 H4 H5)|].
  split; [exact H6|].
  exact (proj2 (proj2 (set_piecewise 7%Q (Sequence.of_value 5%Q) (-1)%Q)) H6).
Defined.

Lemma chain_end_value_witness :
  list.last Scenario.ramp_hold_calls
  = Some (Sequence.CallThen Phrase.Hold 10%Q 1%Q)
  /\ Sequence.getEndValue Scenario.ramp_hold = 10%Q.
Proof.
  assert (H : list.last Scenario.ramp_hold_calls
              = Some (Sequence.CallThen Phrase.Hold 10%Q 1%Q)) by reflexivity.
  split; [exact H|].
  exact (proj1 (chain_end_value Scenario.ramp_hold_calls _
                                (Sequence.of_value 0%Q) H)).
Defined.




Lemma calls_append_one_witness :
  Sequence._phrases Scenario.ramp_hold !! 0%nat = Some Scenario.p1
  /\ Sequence._phrases
       (Sequence.chain [Sequence.CallSet 7%Q] Scenario.ramp_hold) !! 0%nat
     = Some Scenario.p1
  /\ Sequence._phrases Scenario.ramp_hold <> []
  /\ Sequence.getPhraseCount
       (Sequence.chain [Sequence.CallSet 7%Q] Scenario.ramp_hold)
     = (Sequence.getPhraseCount Scenario.ramp_hold + 1)%nat.
Proof.
  assert (H1 : Sequence._phrases Scenario.ramp_hold !! 0%nat = Some Scenario.p1)
    by reflexivity.
  assert (H2 : Sequence._phrases Scenario.ramp_hold <> []) by discriminate.
  split; [exact H1|].
  split; [exact (proj1 (@calls_append_one Q) [Sequence.CallSet 7%Q]
                       Scenario.ramp_hold 0%nat Scenario.p1 H1)|].
  split; [exact H2|].
  exact (proj2 (proj2 (@calls_append_one Q)) [Sequence.CallSet 7%Q]
               Scenario.ramp_hold H2).
Defined.

Lemma store_chain_frame_witness :
  Scenario.one_object !! 3%nat = Some Scenario.ramp_hold
  /\ exists h',
       Store.chain [Sequence.CallSet 7%Q] 3%nat Scenario.one_object
       = Some (3%nat, h')
       /\ h' !! 3%nat
          = Some (Sequence.chain [Sequence.CallSet 7%Q] Scenario.ramp_hold).
Proof.
  assert (H : Scenario.one_object !! 3%nat = Some Scenario.ramp_hold)
    by reflexivity.
  split; [exact H|].
  destruct (store_chain_frame [Sequence.CallSet 7%Q] 3%nat Scenario.one_object
                              Scenario.ramp_hold H) as (h' & H1 & H2 & _).
  exists h'. auto.
Defined.

Lemma end_clamp_when_well_formed_witness :
  Sequence.invariants Scenario.ramp_hold
  /\ (Sequence.getEndTime Scenario.ramp_hold <= 3)%Q
  /\ Sequence.getValue Scenario.ramp_hold 3%Q
     = Sequence.getEndValue Scenario.ramp_hold.
Proof.
  assert (H1 := ramp_hold_invariants).
  assert (H2 : (Sequence.getEndTime Scenario.ramp_hold <= 3)%Q) by time_fact.
  split; [exact H1|]. split; [exact H2|].
  exact (proj2 (proj1 (@end_clamp_when_well_formed Q) Scenario.ramp_hold 3%Q H1) H2).
Defined.

Lemma copy_is_fresh_witness :
  Scenario.one_object !! 3%nat = Some Scenario.ramp_hold
  /\ exists (r2 : Store.ref) h1,
       Store.copy 3%nat Scenario.one_object = Some (r2, h1)
       /\ Scenario.one_object !! r2 = None
       /\ h1 !! r2 = Some Scenario.ramp_hold.
Proof.
  assert (H : Scenario.one_object !! 3%nat = Some Scenario.ramp_hold)
    by reflexivity.
  split; [exact H|].
  destruct (copy_is_fresh Scenario.one_object 3%nat Scenario.ramp_hold H)
    as (r2 & h1 & H1 & H2 & H3 & _).
  exists r2, h1. auto.
Defined.

(** ** The start of the timeline *)

Section StartBoundary.

Context {T : Type}.

Implicit Types (s : Sequence.t T) (c : Sequence.call T).
Implicit Types (calls : list (Sequence.call T)).

Lemma apply_start_boundary c s :
  (forall f, list.head (Sequence._phrases s) = Some f ->
             Source.getStartTime f = 0%Q
             /\ Source.getStartValue f = Sequence._initial_value s) ->
  (Sequence._phrases s = [] -> Sequence._end_time s = 0%Q) ->
  (forall f, list.head (Sequence._phrases (Sequence.apply c s)) = Some f ->
             Source.getStartTime f = 0%Q
             /\ Source.getStartValue f
                = Sequence._initial_value (Sequence.apply c s))
  /\ (Sequence._phrases (Sequence.apply c s) = [] ->
      Sequence._end_time (Sequence.apply c s) = 0%Q).
Proof.
  intros Hhead Hend.
  assert (Hthen : forall K v d,
    (forall f, list.head (Sequence._phrases (Sequence.then_ K v d s)) = Some f ->
               Source.getStartTime f = 0%Q
               /\ Source.getStartValue f
                  = Sequence._initial_value (Sequence.then_ K v d s))
    /\ (Sequence._phrases (Sequence.then_ K v d s) = [] ->
        Sequence._end_time (Sequence.then_ K v d s) = 0%Q)).
  { intros K v d. rewrite then_phrases. split.
    - intros f. rewrite head_snoc.
      destruct (list.head (Sequence._phrases s)) as [y|] eqn:Hy.
      + intros [= <-]. now apply Hhead.
      + intros [= <-]. apply head_None in Hy. simpl.
        unfold Sequence.getEndTime, Sequence.getEndValue.
        rewrite (Hend Hy), Hy. split; reflexivity.
    - intros Habs. apply app_eq_nil in Habs. destruct Habs; discriminate. }
  destruct c as [K v d|v]; simpl; [apply Hthen|].
  destruct (phrases_empty_or_not s) as [E|E].
  - rewrite (set_empty v s E). simpl. split; [discriminate|]. intros _. auto.
  - rewrite (set_nonempty v s E). apply Hthen.
Qed.

(** X13. Once a Sequence has phrases no call changes its start value.  In
    a Sequence built from a value, the first phrase starts at time 0 and
    its start value is the start value of the Sequence, so the values join
    at the start of the timeline as they do between phrases. *)
Theorem start_boundary :
  (forall calls s,
     Sequence._phrases s <> [] ->
     Sequence.getStartValue (Sequence.chain calls s) = Sequence.getStartValue s)
  /\ (forall (v0 : T) calls f,
        list.head (Sequence._phrases (Sequence.chain calls (Sequence.of_value v0)))
        = Some f ->
        Source.getStartTime f = 0%Q
        /\ Source.getStartValue f
           = Sequence.getStartValue (Sequence.chain calls (Sequence.of_value v0))).
Proof.
  split.
  - induction calls as [|c calls IH]; intros s E; [reflexivity|].
    rewrite chain_cons, IH.
    + destruct c as [K v d|v]; simpl; [reflexivity|].
      now rewrite (set_nonempty v s E).
    + destruct (apply_appends_one c s E) as [p ->].
      intros Habs. apply app_eq_nil in Habs. destruct Habs; discriminate.
  - intros v0 calls.
    assert (Hgen : forall s,
      (forall f, list.head (Sequence._phrases s) = Some f ->
                 Source.getStartTime f = 0%Q
                 /\ Source.getStartValue f = Sequence._initial_value s) ->
      (Sequence._phrases s = [] -> Sequence._end_time s = 0%Q) ->
      forall f, list.head (Sequence._phrases (Sequence.chain calls s)) = Some f ->
                Source.getStartTime f = 0%Q
                /\ Source.getStartValue f
                   = Sequence._initial_value (Sequence.chain calls s)).
    { induction calls as [|c calls IH]; intros s H1 H2; [exact H1|].
      rewrite chain_cons. destruct (apply_start_boundary c s H1 H2) as [H1' H2'].
      now apply IH. }
    apply Hgen; simpl; [discriminate|reflexivity].
Qed.

End StartBoundary.

Lemma start_boundary_witness :
  Sequence._phrases Scenario.ramp_hold <> []
  /\ Sequence.getStartValue
       (Sequence.chain [Sequence.CallSet 7%Q] Scenario.ramp_hold)
     = Sequence.getStartValue Scenario.ramp_hold
  /\ list.head (Sequence._phrases Scenario.ramp_hold) = Some Scenario.p1
  /\ Source.getStartTime Scenario.p1 = 0%Q
  /\ Source.getStartValue Scenario.p1 = Sequence.getStartValue Scenario.ramp_hold.
Proof.
  assert (H1 : Sequence._phrases Scenario.ramp_hold <> []) by discriminate.
  assert (H2 : list.head (Sequence._phrases Scenario.ramp_hold) = Some Scenario.p1)
    by reflexivity.
  split; [exact H1|].
  split; [exact (proj1 (@start_boundary Q) [Sequence.CallSet 7%Q]
                       Scenario.ramp_hold H1)|].
  split; [exact H2|].
  exact (proj2 (@start_boundary Q) 0%Q Scenario.ramp_hold_calls Scenario.p1 H2).
Defined.

(** * The Sequence on any clock *)

Section OnAnyClock.

Context {C : Clock.t} {T : Type}.

Implicit Types (s : Clocked.Sequence.t C T) (p q : Clocked.Source.t C T).
Implicit Types (K : Clocked.Phrase.kind C T) (v : T) (d t : Clock.time C).
Implicit Types (c : Clocked.Sequence.call C T).
Implicit Types (calls : list (Clocked.Sequence.call C T)).

Lemma clocked_chain_cons calls c s :
  Clocked.Sequence.chain (c :: calls) s
  = Clocked.Sequence.chain calls (Clocked.Sequence.apply c s).
Proof. reflexivity. Qed.








(** *** The final [return] *)

Lemma clocked_scan_None (l : list (Clocked.Source.t C T)) t :
  Clocked.Sequence.scan l t = None ->
  forall p, list.last l = Some p ->
            Clock.ltb C t (Clocked.Source.getEndTime p) = false.
Proof.
  induction l as [|a l IH]; simpl; intros H p Hp; [discriminate|].
  destruct (Clock.ltb C t (Clocked.Source.getEndTime a)) eqn:E; [discriminate|].
  destruct (Clocked.Sequence.scan l t) as [[i q]|] eqn:Es; [discriminate|].
  destruct l as [|b l]; simpl in Hp.
  - injection Hp as <-. exact E.
  - now apply IH.
Qed.

Lemma clocked_of_value_end_is_last v0 :
  Clocked.Sequence.end_is_last (Clocked.Sequence.of_value (C := C) v0).
Proof. split; [discriminate|reflexivity]. Qed.

Lemma clocked_of_phrases_end_is_last (l : list (Clocked.Source.t C T)) s :
  Clocked.Sequence.of_phrases l = Returns s -> Clocked.Sequence.end_is_last s.
Proof.
  unfold Clocked.Sequence.of_phrases.
  destruct (list.head l) as [front|] eqn:Hf; [|discriminate].
  destruct (list.last l) as [back|] eqn:Hb; [|discriminate].
  intros [= <-]. split; simpl.
  - rewrite Hb. now intros b [= <-].
  - intros ->. discriminate.
Qed.

Lemma clocked_then_end_is_last K v d s :
  Clocked.Sequence.end_is_last (Clocked.Sequence.then_ K v d s).
Proof.
  split; simpl.
  - rewrite last_snoc. now intros b [= <-].
  - intros Habs. apply app_eq_nil in Habs. destruct Habs; discriminate.
Qed.

Lemma clocked_apply_end_is_last c s :
  Clocked.Sequence.end_is_last s ->
  Clocked.Sequence.end_is_last (Clocked.Sequence.apply c s).
Proof.
  intros H. destruct c as [K v d|v]; simpl; [apply clocked_then_end_is_last|].
  unfold Clocked.Sequence.set. destruct (Clocked.Sequence._phrases s) eqn:E.
  - destruct H as [H1 H2]. split; simpl.
    + discriminate.
    + intros _. apply H2. exact E.
  - apply clocked_then_end_is_last.
Qed.

Lemma clocked_chain_end_is_last calls s :
  Clocked.Sequence.end_is_last s ->
  Clocked.Sequence.end_is_last (Clocked.Sequence.chain calls s).
Proof.
  revert s. induction calls as [|c calls IH]; intros s H; [exact H|].
  rewrite clocked_chain_cons. now apply IH, clocked_apply_end_is_last.
Qed.

Lemma clocked_no_fallback s t :
  Clocked.Sequence.end_is_last s ->
  Clock.ltb C t (Clocked.Sequence.getEndTime s) = true ->
  Clocked.Sequence.getValue_branch s t <> Clocked.Sequence.Fallback.
Proof.
  intros [H1 H2] Ht. unfold Clocked.Sequence.getValue_branch.
  destruct (Clock.ltb C t (Clocked.Sequence.getStartTime s)) eqn:E1; [discriminate|].
  destruct (Clock.geb C t (Clocked.Sequence.getEndTime s)); [discriminate|].
  destruct (Clocked.Sequence.scan (Clocked.Sequence._phrases s) t) as [[i p]|] eqn:Es;
    [discriminate|].
  exfalso. destruct (list.last (Clocked.Sequence._phrases s)) as [b|] eqn:Hb.
  - pose proof (clocked_scan_None _ _ Es b Hb) as Hfalse.
    rewrite (H1 b eq_refl) in Ht. congruence.
  - apply last_None in Hb. rewrite (H2 Hb) in E1. congruence.
Qed.

(** X7. In every Sequence that the two constructors and the calls build,
    whatever the durations and however the phrases of the vector are
    arranged, a query at a time that compares as before the end time never
    takes the final [return] of [getValue]. *)
Theorem fallback_never_taken :
  (forall v0 calls t,
     Clock.ltb C t
       (Clocked.Sequence.getEndTime
          (Clocked.Sequence.chain calls (Clocked.Sequence.of_value v0))) = true ->
     Clocked.Sequence.getValue_branch
       (Clocked.Sequence.chain calls (Clocked.Sequence.of_value v0)) t
     <> Clocked.Sequence.Fallback)
  /\ (forall (l : list (Clocked.Source.t C T)) s0 calls t,
        Clocked.Sequence.of_phrases l = Returns s0 ->
        Clock.ltb C t
          (Clocked.Sequence.getEndTime (Clocked.Sequence.chain calls s0)) = true ->
        Clocked.Sequence.getValue_branch (Clocked.Sequence.chain calls s0) t
        <> Clocked.Sequence.Fallback).
Proof.
  split.
  - intros v0 calls t. apply clocked_no_fallback, clocked_chain_end_is_last.
    apply clocked_of_value_end_is_last.
  - intros l s0 calls t H. apply clocked_no_fallback, clocked_chain_end_is_last.
    now apply (clocked_of_phrases_end_is_last l).
Qed.

End OnAnyClock.

(** ** The exact clock *)

Section ExactClock.

Context {T : Type}.

Implicit Types (s : Sequence.t T) (l : list (Source.t T)).


Lemma of_exact_getEndValue s :
  Clocked.Sequence.getEndValue (of_exact s) = Sequence.getEndValue s.
Proof.
  unfold Clocked.Sequence.getEndValue, Sequence.getEndValue, of_exact. simpl.
  rewrite fmap_last. destruct (list.last (Sequence._phrases s)); reflexivity.
Qed.

(** [then] on the exact clock is [then] of the exact-time Sequence. *)
Lemma of_exact_then (K : Phrase.kind T) v d s :
  of_exact (Sequence.then_ K v d s)
  = Clocked.Sequence.then_ (C := Clock.exact) K v d (of_exact s).
Proof.
  unfold Clocked.Sequence.then_. rewrite of_exact_getEndValue.
  unfold of_exact, Sequence.then_. simpl. rewrite fmap_app. reflexivity.
Qed.

Lemma of_exact_set v s :
  of_exact (Sequence.set v s) = Clocked.Sequence.set v (of_exact s).
Proof.
  destruct (phrases_empty_or_not s) as [E|E].
  - rewrite (set_empty v s E). unfold Clocked.Sequence.set, of_exact. simpl.
    rewrite E. reflexivity.
  - rewrite (set_nonempty v s E), of_exact_then.
    unfold Clocked.Sequence.set. unfold of_exact at 2. simpl.
    destruct (Sequence._phrases s); [contradiction|reflexivity].
Qed.

Lemma of_exact_scan l t :
  Clocked.Sequence.scan (C := Clock.exact) (of_exact_source <$> l) t
  = match Sequence.scan l t with
    | Some (i, p) => Some (i, of_exact_source p)
    | None => None
    end.
Proof.
  induction l as [|a l IH]; [reflexivity|].
  rewrite fmap_cons. cbn [Clocked.Sequence.scan Sequence.scan]. rewrite IH.
  change (Clock.ltb Clock.exact t (Clocked.Source.getEndTime (of_exact_source a)))
    with (Time.ltb t (Source.getEndTime a)).
  destruct (Time.ltb t (Source.getEndTime a)); [reflexivity|].
  destruct (Sequence.scan l t) as [[i p]|]; reflexivity.
Qed.

(** [getValue] on the exact clock is [getValue] of the exact-time
    Sequence. *)
Lemma of_exact_getValue s t :
  Clocked.Sequence.getValue (of_exact s) t = Sequence.getValue s t.
Proof.
  unfold Clocked.Sequence.getValue, Sequence.getValue.
  rewrite of_exact_getEndValue. unfold of_exact at 1 2 3 4. simpl.
  rewrite of_exact_scan. unfold Sequence.getStartTime, Sequence.getEndTime.
  destruct (Time.ltb t (Sequence._start_time s)); [reflexivity|].
  destruct (Time.geb t (Sequence._end_time s)); [reflexivity|].
  destruct (Sequence.scan (Sequence._phrases s) t) as [[i p]|]; reflexivity.
Qed.

(** X3. What [then] does to the answers of a Sequence that satisfies the
    invariants.  With a non-negative duration every answer before the old
    end time stays.  With any duration, a query from the old end time up to
    the new end time is answered by the new phrase, and a query at or after
    the new end time returns [value].  The new end time is the one the call
    leaves in the Sequence. *)
Theorem then_piecewise (K : Phrase.kind T) v d s t :
  Sequence.invariants s ->
  ((0 <= d)%Q -> (t < Sequence.getEndTime s)%Q ->
   Sequence.getValue (Sequence.then_ K v d s) t = Sequence.getValue s t)
  /\ ((Sequence.getStartTime s <= t)%Q -> (Sequence.getEndTime s <= t)%Q ->
      (t < Sequence.getEndTime (Sequence.then_ K v d s))%Q ->
      Sequence.getValue (Sequence.then_ K v d s) t
      = K (Sequence.getEndTime s) (Sequence.getEndTime (Sequence.then_ K v d s))
          (Sequence.getEndValue s) v t)
  /\ ((Sequence.getStartTime s <= t)%Q ->
      (Sequence.getEndTime (Sequence.then_ K v d s) <= t)%Q ->
      Sequence.getValue (Sequence.then_ K v d s) t = v).
Proof.
  intros Hinv. split; [|split].
  - intros Hd Ht. apply then_keeps_earlier_values; auto.
    now apply invariants_bounds_cached.
  - intros H1 H2 H3. unfold Sequence.getValue.
    rewrite then_start_time, then_phrases.
    apply ltb_ge in H1. apply geb_lt in H3. rewrite H1, H3.
    rewrite scan_skip.
    + simpl. apply geb_lt, ltb_lt in H3. rewrite then_end_time in H3.
      now rewrite H3.
    + intros j q Hq. pose proof (ends_before_end s j q Hinv Hq). lra.
  - intros H1 H2. rewrite getValue_at_end.
    + apply then_end_value.
    + now rewrite then_start_time.
    + exact H2.
Qed.

End ExactClock.

(** ** The Sequence in [float], evaluated *)

Example float_sum_is_rounded :
  Clock.add Clock.binary32 (Clock.float 16777216 0) (Clock.float 1 0)
  = Clock.float 16777216 0
  /\ Clock.add Clock.binary32 (Clock.float 1 0) (Clock.float (-1) (-30))
     = Clock.float 1 0.
Proof. split; reflexivity. Qed.

Example large_end_time :
  Clocked.Sequence.getEndTime Scenario.large = Clock.float 16777216 0.
Proof. reflexivity. Qed.

(** [Sequence<float> s(0); s.then<Hold>(5, -1);] in [float]: one phrase,
    from time 0 to time -1. *)
Example backwards_in_float :
  Clocked.Sequence._phrases
    (Clocked.Sequence.then_ (C := Clock.binary32) Clocked.Phrase.Hold 5%Q
       (Clock.float (-1) 0) (Clocked.Sequence.of_value 0%Q))
  = [Clocked.Phrase.make (C := Clock.binary32) Clocked.Phrase.Hold
       (Clock.zero Clock.binary32) (Clock.float (-1) 0) 0%Q 5%Q]
  /\ Clock.ltb Clock.binary32 (Clock.float (-1) 0) (Clock.zero Clock.binary32)
     = true.
Proof. split; reflexivity. Qed.

(** A negative duration that the sum absorbs gives a phrase that ends when
    it starts, and the end time stays. *)
Example absorbed_negative_duration :
  Clock.ltb Clock.binary32 (Clock.float (-1) (-30)) (Clock.zero Clock.binary32)
  = true
  /\ list.last
       (Clocked.Sequence._phrases
          (Clocked.Sequence.then_ (C := Clock.binary32) Clocked.Phrase.Hold 6%Q
             (Clock.float (-1) (-30))
                                  Scenario.one_second))
     = Some (Clocked.Phrase.make (C := Clock.binary32) Clocked.Phrase.Hold
               (Clock.float 1 0) (Clock.float 1 0) 5%Q 6%Q)
  /\ Clocked.Sequence.getEndTime
       (Clocked.Sequence.then_ (C := Clock.binary32) Clocked.Phrase.Hold 6%Q
             (Clock.float (-1) (-30))
                               Scenario.one_second)
     = Clocked.Sequence.getEndTime Scenario.one_second.
Proof. repeat split. Qed.

(** A NaN compares as neither before the start time nor at or after the
    end time, and no phrase ends after it: the query takes the final
    [return]. *)
Example nan_query_takes_fallback :
  Clocked.Sequence.getValue_branch Scenario.one_second S754_nan
  = Clocked.Sequence.Fallback.
Proof. reflexivity. Qed.

Example float_add_nonneg_samples :
  Clock.geb Clock.binary32
    (Clock.add Clock.binary32 (Clock.float 16777216 0) (Clock.float 1 0))
    (Clock.float 16777216 0) = true
  /\ Clock.geb Clock.binary32
       (Clock.add Clock.binary32 (S754_infinity false) (Clock.float 1 0))
       (S754_infinity false) = true
  /\ Clock.geb Clock.binary32
       (Clock.add Clock.binary32 (Clock.float 1 0) (Clock.float 1 (-30)))
       (Clock.float 1 0) = true.
Proof. repeat split. Qed.

(** ** The theorems on a clock, at concrete Sequences *)




Lemma fallback_never_taken_witness :
  Clock.ltb Clock.binary32 (Clock.float 1 0)
            (Clocked.Sequence.getEndTime Scenario.large) = true
  /\ Clocked.Sequence.getValue_branch Scenario.large (Clock.float 1 0)
     <> Clocked.Sequence.Fallback
  /\ Clocked.Sequence.of_phrases [Scenario.float_phrase]
     = Returns Scenario.float_from_phrase
  /\ Clock.ltb Clock.binary32 (Clock.float 5 (-2))
       (Clocked.Sequence.getEndTime
          (Clocked.Sequence.chain Scenario.float_back_calls
                                  Scenario.float_from_phrase)) = true
  /\ Clocked.Sequence.getValue_branch
       (Clocked.Sequence.chain Scenario.float_back_calls Scenario.float_from_phrase)
       (Clock.float 5 (-2))
     <> Clocked.Sequence.Fallback.
Proof.
  assert (H1 : Clock.ltb Clock.binary32 (Clock.float 1 0)
                 (Clocked.Sequence.getEndTime Scenario.large) = true)
    by reflexivity.
  assert (H2 : Clocked.Sequence.of_phrases [Scenario.float_phrase]
               = Returns Scenario.float_from_phrase) by reflexivity.
  assert (H3 : Clock.ltb Clock.binary32 (Clock.float 5 (-2))
                 (Clocked.Sequence.getEndTime
                    (Clocked.Sequence.chain Scenario.float_back_calls
                                            Scenario.float_from_phrase)) = true)
    by reflexivity.
  split; [exact H1|].
  split; [exact (proj1 (fallback_never_taken (C := Clock.binary32) (T := Q))
                       0%Q Scenario.large_calls (Clock.float 1 0) H1)|].
  split; [exact H2|]. split; [exact H3|].
  exact (proj2 (fallback_never_taken (C := Clock.binary32) (T := Q))
               [Scenario.float_phrase] Scenario.float_from_phrase
               Scenario.float_back_calls (Clock.float 5 (-2)) H2 H3).
Defined.

Lemma then_piecewise_witness :
  Sequence.invariants Scenario.ramp_hold
  /\ (Sequence.getStartTime Scenario.ramp_hold <= 5#2)%Q
  /\ (Sequence.getEndTime Scenario.ramp_hold <= 5#2)%Q
  /\ (5#2 < Sequence.getEndTime
              (Sequence.then_ Phrase.Hold 3%Q 1%Q Scenario.ramp_hold))%Q
  /\ Sequence.getValue (Sequence.then_ Phrase.Hold 3%Q 1%Q Scenario.ramp_hold) (5#2)
     = 3%Q.
Proof.
  assert (H0 := ramp_hold_invariants).
  assert (H2 : (Sequence.getStartTime Scenario.ramp_hold <= 5#2)%Q) by time_fact.
  assert (H3 : (Sequence.getEndTime Scenario.ramp_hold <= 5#2)%Q) by time_fact.
  assert (H4 : (5#2 < Sequence.getEndTime
                        (Sequence.then_ Phrase.Hold 3%Q 1%Q Scenario.ramp_hold))%Q)
    by time_fact.
  repeat (split; [assumption|]).
  exact (proj1 (proj2 (then_piecewise Phrase.Hold 3%Q 1%Q Scenario.ramp_hold (5#2)
                                      H0)) H2 H3 H4).
Defined.

Lemma ramp_set_set_hold_invariants :
  Sequence.invariants Scenario.ramp_set_set_hold.
Proof.
  apply chain_invariants; [nonneg_durations|apply of_value_invariants].
Qed.

(** The claim C10 as stated fails where two [set] calls follow one another:
    in [s.then<RampTo>(10, 1).set(7).set(8).then<Hold>(8, 1)] the Hold at
    index 1 has zero duration at time 1, and the query at time 1 is
    answered neither by the phrase that follows it (index 2) nor by the end
    clamp, but by the phrase at index 3. *)
Lemma following_phrase_counterexample :
  Sequence.invariants Scenario.ramp_set_set_hold
  /\ exists z p,
       Sequence._phrases Scenario.ramp_set_set_hold !! 1%nat = Some z
       /\ (Source.getStartTime z == 1)%Q
       /\ (Source.getEndTime z == 1)%Q
       /\ Sequence._phrases Scenario.ramp_set_set_hold !! 3%nat = Some p
       /\ Sequence.getValue_branch Scenario.ramp_set_set_hold 1%Q
          = Sequence.Delegate 3 p.
Proof.
  split; [apply ramp_set_set_hold_invariants|].
  eexists _, _. split; [reflexivity|]. split; [time_fact|]. split; [time_fact|].
  split; reflexivity.
Qed.
